(** * DCF valuation engine of [dcf.py]

    The script is one straight-line computation (lines 105-162): it reads
    three financial statements and a closing price, projects free cash flow,
    derives a discount rate and discounts the projection.

    Numbers.  The script computes with binary64 values.  They are embedded
    here as exact rationals ([Q]); rounding is not represented.  A value
    that is not a finite number (numpy's [inf] and [nan], produced by a
    division by zero or by a fractional power of a negative base) is the
    single constructor [NonFin].  numpy scalars do not raise on a division
    by zero, so such a value flows on through the rest of the script.

    The two numeric examples of the specification are in addition evaluated
    in binary64 itself, on primitive floats, by the definitions whose names
    end in [_b64].

    Control.  A Python exception aborts the script; it is the [Raise]
    constructor of [outcome].  A name that is assigned in only one branch
    of a conditional is an [option]: reading it while unbound raises
    [NameError]. *)

From Stdlib Require Import QArith Qpower ZArith List String Bool Lqa.
From Stdlib Require Import PrimFloat.

#[local] Set Warnings "-inexact-float".
Import ListNotations.

Open Scope string_scope.
Open Scope list_scope.
Open Scope Q_scope.

(** ** Exceptions and the error monad *)

Inductive exn : Type :=
| NameError (name : string)
| KeyError (label : string)
| IndexError.

Inductive outcome (A : Type) : Type :=
| Done (a : A)
| Raise (e : exn).

Arguments Done {A} a.
Arguments Raise {A} e.

Definition bind {A B : Type} (m : outcome A) (k : A -> outcome B) : outcome B :=
  match m with
  | Done a => k a
  | Raise e => Raise e
  end.

Notation "x <- m ;; k" := (bind m (fun x => k))
  (at level 61, m at next level, right associativity).

(** Reading a name that may be unbound. *)
Definition read {A : Type} (name : string) (slot : option A) : outcome A :=
  match slot with
  | Some a => Done a
  | None => Raise (NameError name)
  end.

(** ** Numbers *)

Inductive num : Type :=
| Fin (q : Q)
| NonFin.

Definition num_eq (x y : num) : Prop :=
  match x, y with
  | Fin p, Fin q => p == q
  | NonFin, NonFin => True
  | _, _ => False
  end.

Definition is_finite (x : num) : bool :=
  match x with
  | Fin _ => true
  | NonFin => false
  end.

(** Python truthiness of a number: [if x] holds exactly when [x] is not zero. *)
Definition truthy (q : Q) : bool := negb (Qeq_bool q 0).

Definition nadd (x y : num) : num :=
  match x, y with
  | Fin p, Fin q => Fin (p + q)
  | _, _ => NonFin
  end.

Definition nsub (x y : num) : num :=
  match x, y with
  | Fin p, Fin q => Fin (p - q)
  | _, _ => NonFin
  end.

Definition nmul (x y : num) : num :=
  match x, y with
  | Fin p, Fin q => Fin (p * q)
  | _, _ => NonFin
  end.

(** [x / d] for a finite divisor [d]; no guard, so [d = 0] gives a value
    that is not finite. *)
Definition ndiv (x : num) (d : Q) : num :=
  match x with
  | Fin p => if Qeq_bool d 0 then NonFin else Fin (p / d)
  | NonFin => NonFin
  end.

(** ** Python and numpy helpers *)

(** [range(lo, hi)] *)
Definition range (lo hi : Z) : list Z :=
  map (fun k => (lo + Z.of_nat k)%Z) (seq 0 (Z.to_nat (hi - lo))).

(** [l[0]] *)
Definition item0 {A : Type} (l : list A) : outcome A :=
  match l with
  | [] => Raise IndexError
  | a :: _ => Done a
  end.

(** [l[-1]] *)
Fixpoint item_last {A : Type} (l : list A) : outcome A :=
  match l with
  | [] => Raise IndexError
  | [a] => Done a
  | _ :: l' => item_last l'
  end.

(** [np.sum] *)
Definition np_sum (l : list num) : num := fold_left nadd l (Fin 0).

(** [np.mean]: the mean of no values is [nan]. *)
Definition np_mean (l : list Q) : num :=
  match l with
  | [] => NonFin
  | _ => Fin (fold_left Qplus l 0 / inject_Z (Z.of_nat (List.length l)))
  end.

(** Element-wise [np.array(xs) / ds] on sequences of equal length. *)
Fixpoint array_div (xs : list num) (ds : list Q) : list num :=
  match xs, ds with
  | x :: xs', d :: ds' => ndiv x d :: array_div xs' ds'
  | _, _ => []
  end.

(** ** Financial statements

    A statement row ([df.loc[label]]) is a series of values keyed by the
    year of the reporting date, most recent first; a statement is a table
    of rows keyed by their label. *)

Definition Series : Type := list (Z * Q).
Definition DataFrame : Type := list (string * Series).

Definition values (s : Series) : list Q := map snd s.
Definition index_years (s : Series) : list Z := map fst s.

(** [label in df.index] *)
Definition in_index (label : string) (df : DataFrame) : bool :=
  existsb (fun r => String.eqb label (fst r)) df.

(** [df.loc[label]] *)
Definition loc (df : DataFrame) (label : string) : outcome Series :=
  match find (fun r => String.eqb label (fst r)) df with
  | Some r => Done (snd r)
  | None => Raise (KeyError label)
  end.

(** [safe_get], line 111 *)
Definition safe_get (df : DataFrame) (label : string) (default : Q) : outcome Q :=
  if in_index label df then
    row <- loc df label ;;
    item0 (values row)
  else Done default.

(** No row of the statement is without columns. *)
Definition rows_nonempty (df : DataFrame) : Prop :=
  forall label row, In (label, row) df -> row <> [].

(** ** Free-cash-flow forecast, lines 114-126 *)

Definition fcf_line : string := "Free Cash Flow".

(** The names the forecast block leaves behind.  Only [fcf_forecast] and
    [terminal_value] are assigned in both branches. *)
Record forecast_env : Type := {
  fcf_raw : option Series;
  years : option (list Z);
  base_value : option num;
  forecast_years : option (list Z);
  growth_rate : option Q;
  fcf_forecast : list num;
  terminal_value : num
}.

Definition forecast (cashflow : DataFrame) : outcome forecast_env :=
  if in_index fcf_line cashflow then
    row <- loc cashflow fcf_line ;;
    let fcf_raw := rev (firstn 4 row) in
    let years := index_years fcf_raw in
    let base_value := np_mean (values fcf_raw) in
    last_year <- item_last years ;;
    let forecast_years := map (fun i => (last_year + i)%Z) (range 1 6) in
    let growth_rate := 17 # 100 in
    let fcf_forecast :=
      map (fun i => nmul base_value (Fin ((1 + growth_rate) ^ i))) (range 1 6) in
    last_forecast <- item_last fcf_forecast ;;
    let terminal_value := nmul last_forecast (Fin (103 # 100)) in
    Done {| fcf_raw := Some fcf_raw;
            years := Some years;
            base_value := Some base_value;
            forecast_years := Some forecast_years;
            growth_rate := Some growth_rate;
            fcf_forecast := fcf_forecast;
            terminal_value := terminal_value |}
  else
    Done {| fcf_raw := None;
            years := None;
            base_value := None;
            forecast_years := None;
            growth_rate := None;
            fcf_forecast := repeat (Fin 0) 5;
            terminal_value := Fin 0 |}.

(** ** Pure formulas, lines 135-162 *)

Definition net_debt (total_debt cash : Q) : Q := total_debt - cash.

Definition pretax_cod (interest_expense total_debt : Q) : Q :=
  if truthy interest_expense && truthy total_debt
  then interest_expense / total_debt * 100
  else 5.

Definition after_tax_cod (pretax_cod tax_rate : Q) : Q :=
  pretax_cod * (1 - tax_rate).

Definition equity_risk_premium : Q := (29 # 10) / 100.
Definition country_risk_premium : Q := (25 # 10) / 100.

Definition cost_of_equity (risk_free_rate : Q) : Q :=
  risk_free_rate / 100 + equity_risk_premium + country_risk_premium.

Definition total_capital (total_equity total_debt : Q) : Q :=
  total_equity + total_debt.

Definition equity_weight (total_equity total_capital : Q) : Q :=
  if truthy total_capital then total_equity / total_capital else 0.

Definition debt_weight (total_debt total_capital : Q) : Q :=
  if truthy total_capital then total_debt / total_capital else 0.

Definition wacc (total_equity total_debt cost_of_equity after_tax_cod : Q) : Q :=
  let total_capital := total_capital total_equity total_debt in
  let equity_weight := equity_weight total_equity total_capital in
  let debt_weight := debt_weight total_debt total_capital in
  if truthy total_capital
  then equity_weight * cost_of_equity + debt_weight * after_tax_cod / 100
  else 1 # 10.

Definition discount_factors (wacc : Q) : list Q :=
  map (fun i => (1 + wacc) ^ i) (range 1 6).

Definition discounted_fcfs (fcf_forecast : list num) (wacc : Q) : list num :=
  array_div fcf_forecast (discount_factors wacc).

Definition discounted_terminal (terminal_value : num) (wacc : Q) : num :=
  ndiv terminal_value ((1 + wacc) ^ 5).

Definition enterprise_value (fcf_forecast : list num) (terminal_value : num)
    (wacc : Q) : num :=
  nadd (np_sum (discounted_fcfs fcf_forecast wacc))
       (discounted_terminal terminal_value wacc).

Definition equity_value (enterprise_value : num) (net_debt : Q) : num :=
  nsub enterprise_value (Fin net_debt).

Definition intrinsic_value (equity_value : num) (shares_outstanding : Q) : num :=
  if truthy shares_outstanding
  then ndiv equity_value shares_outstanding
  else Fin 0.

Definition upside (intrinsic_value : num) (market_price : Q) : num :=
  nmul (ndiv (nsub intrinsic_value (Fin market_price)) market_price) (Fin 100).

(** The caption of the last metric box, lines 348-351, for a finite
    percentage. *)
Definition upside_caption (upside : Q) : string :=
  if Qle_bool 0 upside then "Upside Potential" else "Downside Risk".

(** ** The discount rate and the discounting in binary64

    The same lines on the script's own number format.  A decimal literal
    denotes the nearest binary64 value, as in Python. *)

(** Truthiness of a float: zero of either sign is false, [nan] is true. *)
Definition truthy_b64 (x : float) : bool := negb (PrimFloat.eqb x 0%float).

(** Lines 150-153. *)
Definition wacc_b64 (total_equity total_debt cost_of_equity after_tax_cod : float)
    : float :=
  let total_capital := (total_equity + total_debt)%float in
  let equity_weight :=
    if truthy_b64 total_capital then (total_equity / total_capital)%float
    else 0%float in
  let debt_weight :=
    if truthy_b64 total_capital then (total_debt / total_capital)%float
    else 0%float in
  if truthy_b64 total_capital
  then (equity_weight * cost_of_equity + debt_weight * after_tax_cod / 100)%float
  else 0.1%float.

(** [x ** i] for a small positive integer [i], as a product of [i] factors.
    For [i = 2] this is the correctly rounded square. *)
Definition pow_b64 (x : float) (i : positive) : float :=
  Pos.iter_op PrimFloat.mul i x.

(** One entry of lines 156-157: the forecast of year [i] divided by its
    discount factor. *)
Definition discounted_b64 (fcf wacc : float) (i : positive) : float :=
  (fcf / pow_b64 (1 + wacc) i)%float.

(** ** The script from the fetch to [upside] *)

Record request : Type := {
  close : list Q;
  cashflow : DataFrame;
  income_stmt : DataFrame;
  balance_sheet : DataFrame;
  risk_free_rate : Q
}.

Record valuation : Type := {
  v_market_price : Q;
  v_fcf_forecast : list num;
  v_terminal_value : num;
  v_fcf_cagr : num;
  v_total_equity : Q;
  v_total_debt : Q;
  v_cash : Q;
  v_net_debt : Q;
  v_shares_outstanding : Q;
  v_interest_expense : Q;
  v_tax_rate : Q;
  v_pretax_cod : Q;
  v_after_tax_cod : Q;
  v_cost_of_equity : Q;
  v_total_capital : Q;
  v_wacc : Q;
  v_enterprise_value : num;
  v_equity_value : num;
  v_intrinsic_value : num;
  v_upside : num
}.

Section Script.

(** The platform's power function at a fractional exponent.  Its result
    is in general irrational, so it is left abstract; it is not finite on
    a negative base. *)
Variable float_power : Q -> Q -> num.

Definition npow (x : num) (y : Q) : num :=
  match x with
  | Fin q => float_power q y
  | NonFin => NonFin
  end.

(** CAGR, line 129.  The condition is evaluated first and reads
    [fcf_raw]. *)
Definition fcf_cagr (env : forecast_env) : outcome num :=
  raw <- read "fcf_raw" (fcf_raw env) ;;
  first <- item0 (values raw) ;;
  if truthy first then
    last_forecast <- item_last (fcf_forecast env) ;;
    Done (nsub (npow (ndiv last_forecast first) (1 # 9)) (Fin 1))
  else Done (Fin 0).

Definition dcf (rq : request) : outcome valuation :=
  market_price <- item_last (close rq) ;;
  env <- forecast (cashflow rq) ;;
  fcf_cagr <- fcf_cagr env ;;
  total_equity <-
    safe_get (balance_sheet rq) "Total Equity Gross Minority Interest" 0 ;;
  total_debt <- safe_get (balance_sheet rq) "Total Debt" 0 ;;
  cash <- safe_get (balance_sheet rq) "Cash And Cash Equivalents" 0 ;;
  let net_debt := net_debt total_debt cash in
  shares_outstanding <- safe_get (balance_sheet rq) "Ordinary Shares Number" 0 ;;
  interest_expense <- safe_get (income_stmt rq) "Interest Expense" 0 ;;
  tax_rate <- safe_get (income_stmt rq) "Tax Rate For Calcs" (241 # 1000) ;;
  let pretax_cod := pretax_cod interest_expense total_debt in
  let after_tax_cod := after_tax_cod pretax_cod tax_rate in
  let cost_of_equity := cost_of_equity (risk_free_rate rq) in
  let wacc := wacc total_equity total_debt cost_of_equity after_tax_cod in
  let enterprise_value :=
    enterprise_value (fcf_forecast env) (terminal_value env) wacc in
  let equity_value := equity_value enterprise_value net_debt in
  let intrinsic_value := intrinsic_value equity_value shares_outstanding in
  let upside := upside intrinsic_value market_price in
  Done {| v_market_price := market_price;
          v_fcf_forecast := fcf_forecast env;
          v_terminal_value := terminal_value env;
          v_fcf_cagr := fcf_cagr;
          v_total_equity := total_equity;
          v_total_debt := total_debt;
          v_cash := cash;
          v_net_debt := net_debt;
          v_shares_outstanding := shares_outstanding;
          v_interest_expense := interest_expense;
          v_tax_rate := tax_rate;
          v_pretax_cod := pretax_cod;
          v_after_tax_cod := after_tax_cod;
          v_cost_of_equity := cost_of_equity;
          v_total_capital := total_capital total_equity total_debt;
          v_wacc := wacc;
          v_enterprise_value := enterprise_value;
          v_equity_value := equity_value;
          v_intrinsic_value := intrinsic_value;
          v_upside := upside |}.

End Script.

(** ** Sample data for the examples *)

(** A power function for the examples: for a base [x >= 0] and an exponent
    [y = n/d > 0] it brackets the real [x ^ y] by bisection on
    [r ^ d <= x ^ n]; off that domain it is not finite. *)
Fixpoint bisect (steps : nat) (target : Q) (d : positive) (lo hi : Q) : Q :=
  match steps with
  | O => lo
  | S steps' =>
      let mid := Qred ((lo + hi) / 2) in
      if Qle_bool (mid ^ Zpos d) target
      then bisect steps' target d mid hi
      else bisect steps' target d lo mid
  end.

Definition sample_power (x y : Q) : num :=
  match Qnum y with
  | Zpos n =>
      if Qle_bool 0 x
      then Fin (bisect 24 (x ^ Zpos n) (Qden y) 0 (Qred (1 + x ^ Zpos n)))
      else NonFin
  | _ => NonFin
  end.

Definition sample_cashflow : DataFrame :=
  [ ("Operating Cash Flow", [(2023%Z, 900); (2022%Z, 800); (2021%Z, 700); (2020%Z, 600)]);
    ("Free Cash Flow", [(2023%Z, 400); (2022%Z, 300); (2021%Z, 200); (2020%Z, 100)]) ].

Definition sample_income_stmt : DataFrame :=
  [ ("Interest Expense", [(2023%Z, 12); (2022%Z, 11)]);
    ("Tax Rate For Calcs", [(2023%Z, 22 # 100); (2022%Z, 22 # 100)]) ].

Definition sample_balance_sheet : DataFrame :=
  [ ("Total Equity Gross Minority Interest", [(2023%Z, 700); (2022%Z, 650)]);
    ("Total Debt", [(2023%Z, 300); (2022%Z, 320)]);
    ("Cash And Cash Equivalents", [(2023%Z, 50); (2022%Z, 40)]);
    ("Ordinary Shares Number", [(2023%Z, 10); (2022%Z, 10)]) ].

Definition sample_request : request :=
  {| close := [7000];
     cashflow := sample_cashflow;
     income_stmt := sample_income_stmt;
     balance_sheet := sample_balance_sheet;
     risk_free_rate := 55 # 10 |}.

(** The same request for a company whose cash-flow statement has no
    free-cash-flow row. *)
Definition request_without_fcf : request :=
  {| close := [7000];
     cashflow := [ ("Operating Cash Flow", [(2023%Z, 900); (2022%Z, 800)]) ];
     income_stmt := sample_income_stmt;
     balance_sheet := sample_balance_sheet;
     risk_free_rate := 55 # 10 |}.

(** The sample company with an empty balance sheet. *)
Definition request_without_balance_sheet : request :=
  {| close := [7000];
     cashflow := sample_cashflow;
     income_stmt := sample_income_stmt;
     balance_sheet := [];
     risk_free_rate := 55 # 10 |}.

(** The sample company when the last close is zero. *)
Definition zero_price_request : request :=
  {| close := [7100; 0];
     cashflow := sample_cashflow;
     income_stmt := sample_income_stmt;
     balance_sheet := sample_balance_sheet;
     risk_free_rate := 55 # 10 |}.

(** A request whose statements are all empty. *)
Definition empty_request : request :=
  {| close := [7000];
     cashflow := [];
     income_stmt := [];
     balance_sheet := [];
     risk_free_rate := 55 # 10 |}.

(** ** Auxiliary notions for the further properties *)

(** The row of [label], when the statement has one, has a column. *)
Definition usable (df : DataFrame) (label : string) : Prop :=
  forall row, loc df label = Done row -> row <> [].

(** The plain sum of a list of values. *)
Definition Qsum (l : list Q) : Q := fold_right Qplus 0 l.

(** A company with a single reported year. *)
Definition short_cashflow : DataFrame :=
  [ ("Free Cash Flow", [(2023%Z, 250)]) ].

(** A company with six reported years: the two oldest are not read. *)
Definition long_cashflow : DataFrame :=
  [ ("Free Cash Flow",
     [(2023%Z, 400); (2022%Z, 300); (2021%Z, 200); (2020%Z, 100);
      (2019%Z, -5000); (2018%Z, 77)]);
    ("Capital Expenditure", [(2023%Z, -60)]) ].

Definition long_request : request :=
  {| close := [7000];
     cashflow := long_cashflow;
     income_stmt := sample_income_stmt;
     balance_sheet := sample_balance_sheet;
     risk_free_rate := 55 # 10 |}.

(** A price history without rows, as for an unknown ticker. *)
Definition no_history_request : request :=
  {| close := [];
     cashflow := sample_cashflow;
     income_stmt := sample_income_stmt;
     balance_sheet := sample_balance_sheet;
     risk_free_rate := 55 # 10 |}.

(** A balance sheet whose debt row has no column. *)
Definition hollow_balance_sheet : DataFrame :=
  [ ("Total Equity Gross Minority Interest", [(2023%Z, 700)]);
    ("Total Debt", []) ].

Definition hollow_request : request :=
  {| close := [7000];
     cashflow := sample_cashflow;
     income_stmt := sample_income_stmt;
     balance_sheet := hollow_balance_sheet;
     risk_free_rate := 55 # 10 |}.

(** A company without equity whose interest expense is reported as
    minus its debt: the pretax cost of debt is -100 and the WACC is -1. *)
Definition negative_rate_request : request :=
  {| close := [7000];
     cashflow := sample_cashflow;
     income_stmt :=
       [ ("Interest Expense", [(2023%Z, -300)]);
         ("Tax Rate For Calcs", [(2023%Z, 0)]) ];
     balance_sheet :=
       [ ("Total Debt", [(2023%Z, 300)]);
         ("Ordinary Shares Number", [(2023%Z, 10)]) ];
     risk_free_rate := 55 # 10 |}.

(** * Properties *)

(** ** Basic facts about the helpers *)

Lemma truthy_true (q : Q) : truthy q = true <-> ~ q == 0.
Proof.
  unfold truthy. rewrite negb_true_iff. split.
  - intros H. apply Qeq_bool_neq. exact H.
  - intros H. destruct (Qeq_bool q 0) eqn:E; [|reflexivity].
    apply Qeq_bool_iff in E. contradiction.
Qed.

Lemma truthy_false (q : Q) : truthy q = false <-> q == 0.
Proof.
  unfold truthy. rewrite negb_false_iff. apply Qeq_bool_iff.
Qed.

Lemma ndiv_nonzero (p d : Q) : ~ d == 0 -> ndiv (Fin p) d = Fin (p / d).
Proof.
  intros H. apply truthy_true in H. unfold truthy in H.
  apply negb_true_iff in H. simpl. rewrite H. reflexivity.
Qed.

Lemma ndiv_zero (x : num) (d : Q) : d == 0 -> ndiv x d = NonFin.
Proof.
  intros H. apply Qeq_bool_iff in H. destruct x; simpl; [rewrite H|]; reflexivity.
Qed.

Lemma bind_done {A B : Type} (m : outcome A) (k : A -> outcome B) (b : B) :
  bind m k = Done b -> exists a, m = Done a /\ k a = Done b.
Proof.
  destruct m as [a|e]; simpl; intros H; [exists a; split; auto | discriminate].
Qed.

(** After a successful membership test [df.loc] cannot raise. *)
Lemma loc_in_index (df : DataFrame) (label : string) :
  in_index label df = true -> exists row, loc df label = Done row.
Proof.
  unfold in_index, loc. induction df as [|r df IH]; simpl; [discriminate|].
  destruct (String.eqb label (fst r)); simpl; eauto.
Qed.

Lemma loc_done_in_index (df : DataFrame) (label : string) (row : Series) :
  loc df label = Done row -> in_index label df = true.
Proof.
  unfold in_index, loc. induction df as [|r df IH]; simpl; [discriminate|].
  destruct (String.eqb label (fst r)); simpl; auto.
Qed.

Lemma safe_get_missing (df : DataFrame) (label : string) (default : Q) :
  in_index label df = false -> safe_get df label default = Done default.
Proof. intros H. unfold safe_get. rewrite H. reflexivity. Qed.

(** The forecast block without a free-cash-flow line. *)
Lemma forecast_missing (cf : DataFrame) :
  in_index fcf_line cf = false ->
  forecast cf =
    Done {| fcf_raw := None; years := None; base_value := None;
            forecast_years := None; growth_rate := None;
            fcf_forecast := [Fin 0; Fin 0; Fin 0; Fin 0; Fin 0];
            terminal_value := Fin 0 |}.
Proof. intros H. unfold forecast. rewrite H. reflexivity. Qed.

(** What a completed run went through. *)
Lemma dcf_done (pw : Q -> Q -> num) (rq : request) (v : valuation) :
  dcf pw rq = Done v ->
  exists env,
    forecast (cashflow rq) = Done env /\
    item_last (close rq) = Done (v_market_price v) /\
    fcf_cagr pw env = Done (v_fcf_cagr v) /\
    v_fcf_forecast v = fcf_forecast env /\
    v_terminal_value v = terminal_value env /\
    safe_get (balance_sheet rq) "Total Equity Gross Minority Interest" 0
      = Done (v_total_equity v) /\
    safe_get (balance_sheet rq) "Total Debt" 0 = Done (v_total_debt v) /\
    safe_get (balance_sheet rq) "Cash And Cash Equivalents" 0 = Done (v_cash v) /\
    safe_get (balance_sheet rq) "Ordinary Shares Number" 0
      = Done (v_shares_outstanding v) /\
    safe_get (income_stmt rq) "Interest Expense" 0 = Done (v_interest_expense v) /\
    safe_get (income_stmt rq) "Tax Rate For Calcs" (241 # 1000)
      = Done (v_tax_rate v) /\
    v_net_debt v = net_debt (v_total_debt v) (v_cash v) /\
    v_total_capital v = total_capital (v_total_equity v) (v_total_debt v) /\
    v_pretax_cod v = pretax_cod (v_interest_expense v) (v_total_debt v) /\
    v_after_tax_cod v = after_tax_cod (v_pretax_cod v) (v_tax_rate v) /\
    v_cost_of_equity v = cost_of_equity (risk_free_rate rq) /\
    v_wacc v = wacc (v_total_equity v) (v_total_debt v)
                 (v_cost_of_equity v) (v_after_tax_cod v) /\
    v_enterprise_value v =
      enterprise_value (v_fcf_forecast v) (v_terminal_value v) (v_wacc v) /\
    v_equity_value v = equity_value (v_enterprise_value v) (v_net_debt v) /\
    v_intrinsic_value v =
      intrinsic_value (v_equity_value v) (v_shares_outstanding v) /\
    v_upside v = upside (v_intrinsic_value v) (v_market_price v).
Proof.
  unfold dcf. intros H.
  repeat (apply bind_done in H; destruct H as [? [? H]]).
  injection H as <-. simpl.
  eexists. repeat (split; [eassumption || reflexivity|]). reflexivity.
Qed.

(** The capital-structure items of a completed run. *)
Lemma dcf_capital_structure (pw : Q -> Q -> num) (rq : request) (v : valuation) :
  dcf pw rq = Done v ->
  (in_index "Total Equity Gross Minority Interest" (balance_sheet rq) = false ->
     v_total_equity v = 0) /\
  (in_index "Total Debt" (balance_sheet rq) = false -> v_total_debt v = 0) /\
  (in_index "Cash And Cash Equivalents" (balance_sheet rq) = false ->
     v_cash v = 0) /\
  (in_index "Ordinary Shares Number" (balance_sheet rq) = false ->
     v_shares_outstanding v = 0) /\
  v_net_debt v = v_total_debt v - v_cash v /\
  v_total_capital v = v_total_equity v + v_total_debt v.
Proof.
  intros H. apply dcf_done in H.
  destruct H as [env [_ [_ [_ [_ [_ [Hte [Htd [Hc [Hs [_ [_ [Hnd [Htc _]]]]]]]]]]]]]].
  repeat split.
  - intros M. rewrite (safe_get_missing _ _ _ M) in Hte. congruence.
  - intros M. rewrite (safe_get_missing _ _ _ M) in Htd. congruence.
  - intros M. rewrite (safe_get_missing _ _ _ M) in Hc. congruence.
  - intros M. rewrite (safe_get_missing _ _ _ M) in Hs. congruence.
  - exact Hnd.
  - exact Htc.
Qed.

Lemma range_1_6 : range 1 6 = [1; 2; 3; 4; 5]%Z.
Proof. reflexivity. Qed.

(** ** Completion

    Outside the missing free-cash-flow line the script runs to its end:
    with a close price, a non-empty free-cash-flow row and no statement
    row without columns, every step yields a value. *)

Lemma item_last_app {A : Type} (l : list A) (a : A) :
  item_last (l ++ [a]) = Done a.
Proof.
  induction l as [|b l IH]; [reflexivity|].
  cbn [app item_last]. rewrite IH.
  destruct (l ++ [a]) eqn:E; [|reflexivity].
  destruct l; discriminate E.
Qed.

Lemma item0_nonempty {A : Type} (l : list A) :
  l <> [] -> exists a, item0 l = Done a.
Proof. destruct l as [|a l]; [contradiction | intros _; exists a; reflexivity]. Qed.

Lemma loc_In (df : DataFrame) (label : string) (row : Series) :
  loc df label = Done row -> exists l, In (l, row) df.
Proof.
  unfold loc. destruct (find _ df) as [r|] eqn:F; [|discriminate].
  intros H. injection H as <-. apply find_some in F. destruct F as [F _].
  exists (fst r). destruct r; exact F.
Qed.

Lemma safe_get_total (df : DataFrame) (label : string) (default : Q) :
  rows_nonempty df -> exists q, safe_get df label default = Done q.
Proof.
  intros N. unfold safe_get. destruct (in_index label df) eqn:I; [|eauto].
  destruct (loc_in_index _ _ I) as [row L]. rewrite L. cbn [bind].
  destruct (loc_In _ _ _ L) as [l HIn]. apply item0_nonempty.
  unfold values. intros E. apply map_eq_nil in E. exact (N _ _ HIn E).
Qed.

Lemma forecast_present (cf : DataFrame) (row : Series) :
  loc cf fcf_line = Done row -> row <> [] ->
  exists env raw first last_forecast,
    forecast cf = Done env /\
    fcf_raw env = Some raw /\
    item0 (values raw) = Done first /\
    item_last (fcf_forecast env) = Done last_forecast /\
    List.length (fcf_forecast env) = 5%nat.
Proof.
  intros L N. unfold forecast. rewrite (loc_done_in_index _ _ _ L), L.
  cbn [bind]. destruct row as [|r row]; [contradiction|].
  change (firstn 4 (r :: row)) with (r :: firstn 3 row). cbn [rev].
  unfold index_years. rewrite map_app. cbn [map]. rewrite item_last_app.
  cbn [bind]. rewrite range_1_6. cbn [map item_last bind].
  destruct (item0_nonempty (values (rev (firstn 3 row) ++ [r]))) as [first F].
  { unfold values. rewrite map_app. cbn [map].
    intros E. apply app_eq_nil in E. destruct E as [_ E]. discriminate E. }
  do 4 eexists. split; [reflexivity|]. cbn [fcf_raw fcf_forecast].
  split; [reflexivity|]. split; [exact F|]. split; reflexivity.
Qed.

Lemma dcf_completes (pw : Q -> Q -> num) (rq : request) (mp : Q) (row : Series) :
  item_last (close rq) = Done mp ->
  loc (cashflow rq) fcf_line = Done row -> row <> [] ->
  rows_nonempty (balance_sheet rq) -> rows_nonempty (income_stmt rq) ->
  exists v, dcf pw rq = Done v.
Proof.
  intros C L N B I. unfold dcf. rewrite C. cbn [bind].
  destruct (forecast_present _ _ L N) as [env [raw [first [lf [F [R [F0 [FL _]]]]]]]].
  rewrite F. cbn [bind].
  assert (G : exists g, fcf_cagr pw env = Done g).
  { unfold fcf_cagr. rewrite R. cbn [read bind]. rewrite F0. cbn [bind].
    destruct (truthy first); [rewrite FL|]; cbn [bind]; eauto. }
  destruct G as [g G]. rewrite G. cbn [bind].
  repeat match goal with
  | |- context [safe_get (balance_sheet rq) ?l ?d] =>
      let q := fresh "q" in let E := fresh "E" in
      destruct (safe_get_total (balance_sheet rq) l d B) as [q E];
      rewrite E; cbn [bind]
  | |- context [safe_get (income_stmt rq) ?l ?d] =>
      let q := fresh "q" in let E := fresh "E" in
      destruct (safe_get_total (income_stmt rq) l d I) as [q E];
      rewrite E; cbn [bind]
  end.
  eexists. reflexivity.
Qed.

(** Rows of a literal table have columns. *)
Ltac concrete_rows :=
  let H := fresh "H" in
  intros ? ? H; simpl in H;
  repeat (destruct H as [H|H]; [injection H as _ <-; discriminate|]);
  contradiction.

(** A run on a literal request that completes: name its result. *)
Ltac completed_run v E :=
  match goal with
  | |- context [dcf ?pw ?rq] =>
      destruct (dcf pw rq) as [v|?] eqn:E; [|vm_compute in E; discriminate E]
  end.

(** ** The missing free-cash-flow line *)

(** C1 (as the code behaves).  When the cash-flow statement has no
    "Free Cash Flow" row the forecast block does yield five zeros and a zero
    terminal value, but the next statement, the CAGR, reads [fcf_raw],
    which only the other branch assigns: it raises [NameError], and the run
    never yields a valuation. *)
Theorem missing_fcf_line_raises (pw : Q -> Q -> num) (rq : request) :
  in_index fcf_line (cashflow rq) = false ->
  (exists env,
     forecast (cashflow rq) = Done env /\
     fcf_forecast env = [Fin 0; Fin 0; Fin 0; Fin 0; Fin 0] /\
     terminal_value env = Fin 0 /\
     fcf_cagr pw env = Raise (NameError "fcf_raw")) /\
  (forall market_price,
     item_last (close rq) = Done market_price ->
     dcf pw rq = Raise (NameError "fcf_raw")) /\
  (forall v, dcf pw rq <> Done v).
Proof.
  intros H. pose proof (forecast_missing _ H) as F. split; [|split].
  - eexists. split; [exact F|]. repeat split.
  - intros mp Hmp. unfold dcf. rewrite Hmp. simpl. rewrite F. reflexivity.
  - intros v Hv. apply dcf_done in Hv. destruct Hv as [env [Hf [_ [Hc _]]]].
    rewrite F in Hf. injection Hf as <-. discriminate Hc.
Qed.

Lemma missing_fcf_line_raises_witness :
  in_index fcf_line (cashflow request_without_fcf) = false /\
  dcf sample_power request_without_fcf = Raise (NameError "fcf_raw").
Proof.
  split; [reflexivity|].
  apply (proj1 (proj2 (missing_fcf_line_raises sample_power request_without_fcf
                         eq_refl)) 7000).
  reflexivity.
Defined.

(** ** Capital structure *)

(** C8.  A lookup of a label that the statement does not have yields the
    default it was called with instead of failing.  In every completed run
    each of the four capital-structure items whose label is missing is 0,
    net debt is total debt minus cash, and total capital is total equity
    plus total debt. *)
Theorem capital_structure_defaults :
  (forall df label default,
     in_index label df = false -> safe_get df label default = Done default) /\
  (forall pw rq v,
     dcf pw rq = Done v ->
     (in_index "Total Equity Gross Minority Interest" (balance_sheet rq) = false ->
        v_total_equity v = 0) /\
     (in_index "Total Debt" (balance_sheet rq) = false -> v_total_debt v = 0) /\
     (in_index "Cash And Cash Equivalents" (balance_sheet rq) = false ->
        v_cash v = 0) /\
     (in_index "Ordinary Shares Number" (balance_sheet rq) = false ->
        v_shares_outstanding v = 0) /\
     v_net_debt v = v_total_debt v - v_cash v /\
     v_total_capital v = v_total_equity v + v_total_debt v).
Proof.
  split; [exact safe_get_missing | exact dcf_capital_structure].
Qed.

Lemma capital_structure_defaults_witness :
  exists v,
    dcf sample_power request_without_balance_sheet = Done v /\
    v_total_equity v = 0 /\ v_total_debt v = 0 /\ v_cash v = 0 /\
    v_shares_outstanding v = 0 /\
    v_net_debt v = v_total_debt v - v_cash v /\
    v_total_capital v = v_total_equity v + v_total_debt v.
Proof.
  completed_run v E.
  exists v. split; [reflexivity|].
  destruct (proj2 capital_structure_defaults _ _ _ E)
    as [Hte [Htd [Hc [Hs [Hnd Htc]]]]].
  repeat split; auto.
Defined.

(** ** Discount rate *)

(** C6.  The pretax cost of debt is interest expense / total debt * 100
    when both are nonzero and 5 when either is zero; a missing
    "Interest Expense" or "Total Debt" row counts as zero.  The after-tax
    cost is the pretax cost times (1 - tax rate), and the tax rate is 0.241
    when the statement has no "Tax Rate For Calcs" row. *)
Theorem cost_of_debt_formula :
  (forall ie td, ~ ie == 0 -> ~ td == 0 -> pretax_cod ie td = ie / td * 100) /\
  (forall ie td, ie == 0 \/ td == 0 -> pretax_cod ie td = 5) /\
  (forall pw rq v,
     dcf pw rq = Done v ->
     v_pretax_cod v = pretax_cod (v_interest_expense v) (v_total_debt v) /\
     (in_index "Interest Expense" (income_stmt rq) = false -> v_pretax_cod v = 5) /\
     (in_index "Total Debt" (balance_sheet rq) = false -> v_pretax_cod v = 5) /\
     v_after_tax_cod v = v_pretax_cod v * (1 - v_tax_rate v) /\
     (in_index "Tax Rate For Calcs" (income_stmt rq) = false ->
        v_tax_rate v = 241 # 1000)).
Proof.
  assert (Z : forall ie td, ie == 0 \/ td == 0 -> pretax_cod ie td = 5).
  { intros ie td [H|H]; apply truthy_false in H; unfold pretax_cod; rewrite H.
    - reflexivity.
    - rewrite andb_false_r. reflexivity. }
  split; [|split; [exact Z|]].
  - intros ie td Hie Htd. apply truthy_true in Hie, Htd.
    unfold pretax_cod. rewrite Hie, Htd. reflexivity.
  - intros pw rq v H. apply dcf_done in H.
    destruct H as [env [_ [_ [_ [_ [_ [_ [Htd [_ [_ [Hie [Htax
                  [_ [_ [Hp [Ha _]]]]]]]]]]]]]]]].
    repeat split.
    + exact Hp.
    + intros M. rewrite (safe_get_missing _ _ _ M) in Hie.
      injection Hie as Hie. rewrite Hp, <- Hie. apply Z. left. reflexivity.
    + intros M. rewrite (safe_get_missing _ _ _ M) in Htd.
      injection Htd as Htd. rewrite Hp, <- Htd. apply Z. right. reflexivity.
    + exact Ha.
    + intros M. rewrite (safe_get_missing _ _ _ M) in Htax. congruence.
Qed.

Lemma cost_of_debt_formula_witness :
  pretax_cod 12 300 = 12 / 300 * 100 /\
  pretax_cod 12 0 = 5 /\
  exists v,
    dcf sample_power request_without_balance_sheet = Done v /\
    v_pretax_cod v = 5.
Proof.
  split; [|split].
  - apply (proj1 cost_of_debt_formula); discriminate.
  - apply (proj1 (proj2 cost_of_debt_formula)). right. reflexivity.
  - completed_run v E.
    exists v. split; [reflexivity|].
    apply (proj2 (proj2 cost_of_debt_formula) _ _ _ E). reflexivity.
Defined.

(** C2 as stated fails on its own example: with equity 700, debt 300, cost
    of equity 0.10 and after-tax cost of debt 4 the script's WACC is
    0.08199999999999999, the binary64 value just below 0.082. *)
Lemma wacc_example_binary64 :
  wacc_b64 700 300 0.1 4 = 0.08199999999999999%float /\
  PrimFloat.eqb (wacc_b64 700 300 0.1 4) 0.082 = false /\
  wacc_b64 700 300 0.1 4 <> 0.082%float.
Proof.
  split; [reflexivity|]. split; [reflexivity|].
  intros H. vm_compute in H. discriminate H.
Qed.

(** C2 (amended).  With nonzero total capital the WACC is
    equity / capital * cost of equity + debt / capital * after-tax cost of
    debt / 100; with zero total capital it is 0.10.  For equity 700, debt
    300, cost of equity 10% and after-tax cost of debt 4 (percent) the
    script's value is 0.08199999999999999, within 2^-56 of 0.082. *)
Theorem wacc_formula :
  (forall te td coe atc,
     ~ te + td == 0 ->
     wacc te td coe atc == te / (te + td) * coe + td / (te + td) * atc / 100) /\
  (forall te td coe atc, te + td == 0 -> wacc te td coe atc = 1 # 10) /\
  (forall coe atc : float, wacc_b64 250 (-250) coe atc = 0.1%float) /\
  wacc_b64 700 300 0.1 4 = 0.08199999999999999%float /\
  PrimFloat.leb (PrimFloat.abs (wacc_b64 700 300 0.1 4 - 0.082)) 0x1p-56 = true.
Proof.
  split; [|split; [|split; [|split]]].
  - intros te td coe atc H. apply truthy_true in H.
    unfold wacc, equity_weight, debt_weight, total_capital. rewrite H.
    reflexivity.
  - intros te td coe atc H. apply truthy_false in H.
    unfold wacc, total_capital. rewrite H. reflexivity.
  - intros coe atc. reflexivity.
  - reflexivity.
  - reflexivity.
Qed.

Lemma wacc_formula_witness :
  wacc 700 300 (109 # 1000) (312 # 100)
    == 700 / (700 + 300) * (109 # 1000) + 300 / (700 + 300) * (312 # 100) / 100 /\
  wacc 250 (-250) (109 # 1000) (312 # 100) = 1 # 10.
Proof.
  split.
  - apply (proj1 wacc_formula). discriminate.
  - apply (proj1 (proj2 wacc_formula)). reflexivity.
Defined.

(** ** Valuation *)

(** C5.  With nonzero shares outstanding the intrinsic value per share is
    the equity value divided by the shares; with zero shares it is 0.  The
    division is not evaluated in the second case: the result is a finite
    number for every finite equity value, and a run that gets that far
    completes whatever the number of shares. *)
Theorem intrinsic_value_guarded :
  (forall e sh, ~ sh == 0 -> intrinsic_value (Fin e) sh = Fin (e / sh)) /\
  (forall ev sh, sh == 0 -> intrinsic_value ev sh = Fin 0) /\
  (forall e sh, is_finite (intrinsic_value (Fin e) sh) = true) /\
  (forall pw rq mp row,
     item_last (close rq) = Done mp ->
     loc (cashflow rq) fcf_line = Done row -> row <> [] ->
     rows_nonempty (balance_sheet rq) -> rows_nonempty (income_stmt rq) ->
     exists v,
       dcf pw rq = Done v /\
       v_intrinsic_value v =
         intrinsic_value (v_equity_value v) (v_shares_outstanding v) /\
       (v_shares_outstanding v == 0 -> v_intrinsic_value v = Fin 0)).
Proof.
  assert (Z : forall ev sh, sh == 0 -> intrinsic_value ev sh = Fin 0).
  { intros ev sh H. unfold intrinsic_value.
    rewrite (proj2 (truthy_false sh) H). reflexivity. }
  split; [|split; [exact Z|split]].
  - intros e sh H. unfold intrinsic_value.
    rewrite (proj2 (truthy_true sh) H). apply ndiv_nonzero, H.
  - intros e sh. unfold intrinsic_value. destruct (truthy sh) eqn:E; [|reflexivity].
    apply truthy_true in E. rewrite (ndiv_nonzero _ _ E). reflexivity.
  - intros pw rq mp row C L N B I.
    destruct (dcf_completes pw rq mp row C L N B I) as [v V]. exists v.
    split; [exact V|]. apply dcf_done in V. destruct V as [env V].
    assert (E : v_intrinsic_value v =
                intrinsic_value (v_equity_value v) (v_shares_outstanding v))
      by apply V.
    split; [exact E|]. intros S. rewrite E. apply Z, S.
Qed.

Lemma intrinsic_value_guarded_witness :
  intrinsic_value (Fin 1500) 10 = Fin (1500 / 10) /\
  intrinsic_value (Fin 1500) 0 = Fin 0 /\
  exists v,
    dcf sample_power request_without_balance_sheet = Done v /\
    v_intrinsic_value v = Fin 0.
Proof.
  split; [|split].
  - apply (proj1 intrinsic_value_guarded). discriminate.
  - apply (proj1 (proj2 intrinsic_value_guarded)). reflexivity.
  - destruct (proj2 (proj2 (proj2 intrinsic_value_guarded))
                sample_power request_without_balance_sheet 7000
                [(2023%Z, 400); (2022%Z, 300); (2021%Z, 200); (2020%Z, 100)])
      as [v [V [_ S]]]; try reflexivity; try discriminate; try concrete_rows.
    exists v. split; [exact V|]. apply S.
    destruct (dcf_capital_structure _ _ _ V) as [_ [_ [_ [Hs _]]]].
    rewrite Hs; reflexivity.
Defined.

(** ** Upside *)

Lemma upside_nonzero (iv mp : Q) :
  ~ mp == 0 -> upside (Fin iv) mp = Fin ((iv - mp) / mp * 100).
Proof.
  intros H. unfold upside. simpl nsub. rewrite (ndiv_nonzero _ _ H). reflexivity.
Qed.

Lemma upside_zero (iv : num) (mp : Q) : mp == 0 -> upside iv mp = NonFin.
Proof.
  intros H. unfold upside. rewrite (ndiv_zero _ _ H). reflexivity.
Qed.

Lemma ratio_positive (x mp : Q) : 0 < mp -> (0 < x / mp * 100 <-> 0 < x).
Proof.
  intros Hmp.
  assert (K : 0 < / mp * 100).
  { apply Qmult_lt_0_compat; [apply Qinv_lt_0_compat; exact Hmp | reflexivity]. }
  assert (E : x / mp * 100 == x * (/ mp * 100)) by (unfold Qdiv; ring).
  rewrite E. clear E. generalize dependent (/ mp * 100). intros k K.
  split; intros H.
  - destruct (Qlt_le_dec 0 x) as [L|L]; [exact L|]. exfalso.
    assert (M : x * k <= 0 * k).
    { apply Qmult_le_compat_r; [exact L | apply Qlt_le_weak, K]. }
    rewrite Qmult_0_l in M. apply (Qlt_irrefl 0).
    eapply Qlt_le_trans; [exact H | exact M].
  - apply Qmult_lt_0_compat; assumption.
Qed.

Lemma ratio_negative (x mp : Q) : 0 < mp -> (x / mp * 100 < 0 <-> x < 0).
Proof.
  intros Hmp. pose proof (ratio_positive (- x) mp Hmp) as P.
  assert (E : - x / mp * 100 == - (x / mp * 100)) by (unfold Qdiv; ring).
  rewrite E in P. clear E. generalize dependent (x / mp * 100). intros r P.
  split; intros H.
  - assert (0 < - x) by (apply P; lra). lra.
  - assert (0 < - r) by (apply P; lra). lra.
Qed.

(** C9 as stated fails for a negative market price: with intrinsic value 0
    and market price -1 the intrinsic value exceeds the price, yet the
    percentage is -100. *)
Lemma upside_sign_negative_price :
  ~ (-1 == 0) /\
  -1 < 0 /\
  upside (Fin 0) (-1) = Fin ((0 - -1) / -1 * 100) /\
  (0 - -1) / -1 * 100 == -100 /\
  ~ 0 < (0 - -1) / -1 * 100 /\
  upside_caption ((0 - -1) / -1 * 100) = "Downside Risk".
Proof.
  repeat split; try reflexivity; discriminate.
Qed.

(** C9 (amended).  For every nonzero market price the percentage is
    (intrinsic value - market price) / market price * 100.  For every
    positive market price it is positive exactly when the intrinsic value
    exceeds the price and negative exactly when it is below, and the box is
    captioned "Upside Potential" exactly when the intrinsic value is at
    least the price. *)
Theorem upside_formula_and_sign (iv mp : Q) :
  (~ mp == 0 -> upside (Fin iv) mp = Fin ((iv - mp) / mp * 100)) /\
  (0 < mp ->
     (0 < (iv - mp) / mp * 100 <-> mp < iv) /\
     ((iv - mp) / mp * 100 < 0 <-> iv < mp) /\
     (upside_caption ((iv - mp) / mp * 100) = "Upside Potential" <-> mp <= iv)).
Proof.
  split; [apply upside_nonzero|].
  intros Hmp.
  pose proof (ratio_positive (iv - mp) mp Hmp) as P.
  pose proof (ratio_negative (iv - mp) mp Hmp) as N.
  split; [|split].
  - rewrite P. split; intros H; lra.
  - rewrite N. split; intros H; lra.
  - unfold upside_caption.
    destruct (Qle_bool 0 ((iv - mp) / mp * 100)) eqn:E.
    + apply Qle_bool_iff in E. split; [intros _|reflexivity].
      destruct (Qlt_le_dec iv mp) as [L|L]; [|exact L].
      exfalso. assert (C : (iv - mp) / mp * 100 < 0) by (apply N; lra).
      generalize dependent ((iv - mp) / mp * 100). intros; lra.
    + split; [discriminate|]. intros L. exfalso.
      assert (F : ~ 0 <= (iv - mp) / mp * 100).
      { intros C. apply Qle_bool_iff in C. congruence. }
      apply F. destruct (Qlt_le_dec ((iv - mp) / mp * 100) 0) as [C|C]; [|exact C].
      apply N in C. lra.
Qed.

Lemma upside_formula_and_sign_witness :
  upside (Fin 9000) 7000 = Fin ((9000 - 7000) / 7000 * 100) /\
  (0 < (9000 - 7000) / 7000 * 100 <-> 7000 < 9000).
Proof.
  split.
  - apply (proj1 (upside_formula_and_sign 9000 7000)). discriminate.
  - apply (proj2 (upside_formula_and_sign 9000 7000)). reflexivity.
Defined.

(** C10.  The upside divides by the market price without a guard: for a
    finite intrinsic value it is a finite number exactly when the market
    price is nonzero, and at a zero price nothing is substituted.  The
    other divisions fall back: cost of debt to 5, the weights to 0, the
    per-share value to 0 and the CAGR to 0. *)
Theorem upside_unguarded :
  (forall iv mp, is_finite (upside (Fin iv) mp) = true <-> ~ mp == 0) /\
  (forall iv mp, mp == 0 -> upside iv mp = NonFin) /\
  (forall pw rq v,
     dcf pw rq = Done v -> v_market_price v == 0 -> v_upside v = NonFin) /\
  (forall ie td, td == 0 -> pretax_cod ie td = 5) /\
  (forall te td tc, tc == 0 -> equity_weight te tc = 0 /\ debt_weight td tc = 0) /\
  (forall ev sh, sh == 0 -> intrinsic_value ev sh = Fin 0) /\
  (forall pw env raw first,
     fcf_raw env = Some raw -> item0 (values raw) = Done first -> first == 0 ->
     fcf_cagr pw env = Done (Fin 0)).
Proof.
  repeat split.
  - intros H Z. rewrite (upside_zero _ _ Z) in H. discriminate.
  - intros H. rewrite (upside_nonzero _ _ H). reflexivity.
  - intros iv mp. apply upside_zero.
  - intros pw rq v H Z. apply dcf_done in H. destruct H as [env H].
    decompose [and] H. match goal with U : v_upside v = _ |- _ => rewrite U end.
    apply upside_zero, Z.
  - intros ie td H. apply truthy_false in H. unfold pretax_cod. rewrite H.
    rewrite andb_false_r. reflexivity.
  - unfold equity_weight. apply truthy_false in H. rewrite H. reflexivity.
  - unfold debt_weight. apply truthy_false in H. rewrite H. reflexivity.
  - intros ev sh H. unfold intrinsic_value. apply truthy_false in H.
    rewrite H. reflexivity.
  - intros pw env raw first Hraw Hfirst Z. unfold fcf_cagr.
    rewrite Hraw. simpl. rewrite Hfirst. simpl.
    apply truthy_false in Z. rewrite Z. reflexivity.
Qed.

Lemma upside_unguarded_witness :
  upside (Fin 9000) 0 = NonFin /\
  exists v,
    dcf sample_power zero_price_request = Done v /\
    v_market_price v == 0 /\
    v_upside v = NonFin.
Proof.
  split.
  - apply (proj1 (proj2 upside_unguarded)). reflexivity.
  - completed_run v E.
    exists v.
    assert (Z : v_market_price v == 0).
    { destruct (dcf_done _ _ _ E) as [env [_ [M _]]].
      injection M as <-. reflexivity. }
    split; [reflexivity|]. split; [exact Z|].
    apply (proj1 (proj2 (proj2 upside_unguarded)) _ _ _ E Z).
Defined.

(** ** Forecast *)

(** The forecast block on a free-cash-flow row whose four most recent
    values are, oldest first, [a], [b], [c], [d]. *)
Lemma forecast_four (cf : DataFrame) (row : Series) (ya yb yc yd : Z) (a b c d : Q) :
  loc cf fcf_line = Done row ->
  rev (firstn 4 row) = [(ya, a); (yb, b); (yc, c); (yd, d)] ->
  let m := (0 + a + b + c + d) / inject_Z 4 in
  let g := 1 + (17 # 100) in
  forecast cf =
    Done {| fcf_raw := Some [(ya, a); (yb, b); (yc, c); (yd, d)];
            years := Some [ya; yb; yc; yd];
            base_value := Some (Fin m);
            forecast_years := Some [yd + 1; yd + 2; yd + 3; yd + 4; yd + 5]%Z;
            growth_rate := Some (17 # 100);
            fcf_forecast :=
              [Fin (m * g ^ 1); Fin (m * g ^ 2); Fin (m * g ^ 3);
               Fin (m * g ^ 4); Fin (m * g ^ 5)];
            terminal_value := Fin (m * g ^ 5 * (103 # 100)) |}.
Proof.
  intros Hloc Hrev m g. unfold forecast.
  rewrite (loc_done_in_index _ _ _ Hloc), Hloc. cbn [bind].
  rewrite Hrev, range_1_6. reflexivity.
Qed.

(** C3.  For four historical values [a, b, c, d] the forecast of year [i]
    (i = 1..5) is mean(a, b, c, d) * 1.17^i and the terminal value is the
    year-5 forecast * 1.03. *)
Theorem forecast_mean_growth
    (cf : DataFrame) (row : Series) (ya yb yc yd : Z) (a b c d : Q) :
  loc cf fcf_line = Done row ->
  rev (firstn 4 row) = [(ya, a); (yb, b); (yc, c); (yd, d)] ->
  exists env f1 f2 f3 f4 f5 tv,
    forecast cf = Done env /\
    fcf_forecast env = [Fin f1; Fin f2; Fin f3; Fin f4; Fin f5] /\
    terminal_value env = Fin tv /\
    f1 == (a + b + c + d) / 4 * (117 # 100) ^ 1 /\
    f2 == (a + b + c + d) / 4 * (117 # 100) ^ 2 /\
    f3 == (a + b + c + d) / 4 * (117 # 100) ^ 3 /\
    f4 == (a + b + c + d) / 4 * (117 # 100) ^ 4 /\
    f5 == (a + b + c + d) / 4 * (117 # 100) ^ 5 /\
    tv == f5 * (103 # 100).
Proof.
  intros Hloc Hrev. pose proof (forecast_four _ _ _ _ _ _ _ _ _ _ Hloc Hrev) as F.
  cbv zeta in F. do 7 eexists.
  split; [exact F|]. split; [reflexivity|]. split; [reflexivity|].
  assert (G : 1 + (17 # 100) == 117 # 100) by reflexivity.
  assert (M : (0 + a + b + c + d) / inject_Z 4 == (a + b + c + d) / 4) by field.
  repeat split; rewrite ?G, ?M; reflexivity.
Qed.

Lemma forecast_mean_growth_witness :
  exists env f1 f5 tv,
    forecast sample_cashflow = Done env /\
    nth_error (fcf_forecast env) 0 = Some (Fin f1) /\
    nth_error (fcf_forecast env) 4 = Some (Fin f5) /\
    terminal_value env = Fin tv /\
    f1 == (100 + 200 + 300 + 400) / 4 * (117 # 100) ^ 1 /\
    f5 == (100 + 200 + 300 + 400) / 4 * (117 # 100) ^ 5 /\
    tv == f5 * (103 # 100).
Proof.
  destruct (forecast_mean_growth sample_cashflow
              [(2023%Z, 400); (2022%Z, 300); (2021%Z, 200); (2020%Z, 100)]
              2020 2021 2022 2023 100 200 300 400 eq_refl eq_refl)
    as [env [f1 [f2 [f3 [f4 [f5 [tv [F [L [T [E1 [_ [_ [_ [E5 ET]]]]]]]]]]]]]]].
  exists env, f1, f5, tv. rewrite L.
  repeat split; assumption || reflexivity.
Defined.

(** C7.  For four historical values whose oldest is [a], the CAGR is
    (year-5 forecast / a) ^ (1/9) - 1 when [a] is nonzero and 0 when [a] is
    zero. *)
Theorem cagr_formula (pw : Q -> Q -> num)
    (cf : DataFrame) (row : Series) (ya yb yc yd : Z) (a b c d : Q) :
  loc cf fcf_line = Done row ->
  rev (firstn 4 row) = [(ya, a); (yb, b); (yc, c); (yd, d)] ->
  exists env raw f5,
    forecast cf = Done env /\
    fcf_raw env = Some raw /\
    item0 (values raw) = Done a /\
    item_last (fcf_forecast env) = Done (Fin f5) /\
    f5 == (a + b + c + d) / 4 * (117 # 100) ^ 5 /\
    (~ a == 0 ->
       fcf_cagr pw env = Done (nsub (pw (f5 / a) (1 # 9)) (Fin 1))) /\
    (a == 0 -> fcf_cagr pw env = Done (Fin 0)).
Proof.
  intros Hloc Hrev. pose proof (forecast_four _ _ _ _ _ _ _ _ _ _ Hloc Hrev) as F.
  cbv zeta in F. do 3 eexists.
  split; [exact F|]. split; [reflexivity|]. split; [reflexivity|].
  split; [reflexivity|]. split; [|split].
  - assert (G : 1 + (17 # 100) == 117 # 100) by reflexivity.
    assert (M : (0 + a + b + c + d) / inject_Z 4 == (a + b + c + d) / 4) by field.
    rewrite G, M. reflexivity.
  - intros H. unfold fcf_cagr. cbn [fcf_raw read bind values map snd item0].
    rewrite (proj2 (truthy_true a) H). cbn [bind fcf_forecast item_last].
    rewrite (ndiv_nonzero _ _ H). reflexivity.
  - intros H. unfold fcf_cagr. cbn [fcf_raw read bind values map snd item0].
    rewrite (proj2 (truthy_false a) H). reflexivity.
Qed.

Lemma cagr_formula_witness :
  exists env f5,
    forecast sample_cashflow = Done env /\
    f5 == (100 + 200 + 300 + 400) / 4 * (117 # 100) ^ 5 /\
    fcf_cagr sample_power env
      = Done (nsub (sample_power (f5 / 100) (1 # 9)) (Fin 1)).
Proof.
  destruct (cagr_formula sample_power sample_cashflow
              [(2023%Z, 400); (2022%Z, 300); (2021%Z, 200); (2020%Z, 100)]
              2020 2021 2022 2023 100 200 300 400 eq_refl eq_refl)
    as [env [raw [f5 [F [_ [_ [_ [E [N _]]]]]]]]].
  exists env, f5. repeat split; [exact F | exact E |].
  apply N. discriminate.
Defined.

(** ** Discounting *)

Lemma discount_factors_five (w : Q) :
  discount_factors w =
    [(1 + w) ^ 1; (1 + w) ^ 2; (1 + w) ^ 3; (1 + w) ^ 4; (1 + w) ^ 5].
Proof. unfold discount_factors. rewrite range_1_6. reflexivity. Qed.

Lemma ndiv_power (p w : Q) (i : Z) :
  ~ 1 + w == 0 -> ndiv (Fin p) ((1 + w) ^ i) = Fin (p / (1 + w) ^ i).
Proof. intros H. apply ndiv_nonzero, Qpower_not_0, H. Qed.

(** C4 as stated fails on its own example: at WACC 0.10 a year-2 forecast
    of 121 discounts to 99.99999999999999 in the script, the binary64 value
    just below 100.0. *)
Lemma discount_example_binary64 :
  discounted_b64 121 0.1 2 = 99.99999999999999%float /\
  PrimFloat.eqb (discounted_b64 121 0.1 2) 100 = false /\
  discounted_b64 121 0.1 2 <> 100%float.
Proof.
  split; [reflexivity|]. split; [reflexivity|].
  intros H. vm_compute in H. discriminate H.
Qed.

(** C4 (amended).  The discounted cash flow of year [i] is the forecast
    divided by (1 + WACC)^i, the discounted terminal value is the terminal
    value divided by (1 + WACC)^5, and the enterprise value is the sum of
    the five discounted flows plus the discounted terminal value.  At
    WACC = 0.10 a year-2 forecast of 121 discounts to 121 / 1.10^2, which
    the script evaluates to 99.99999999999999, within 2^-46 of 100. *)
Theorem discounting_formula :
  (forall f1 f2 f3 f4 f5 tv w,
     discounted_fcfs [f1; f2; f3; f4; f5] w =
       [ndiv f1 ((1 + w) ^ 1); ndiv f2 ((1 + w) ^ 2); ndiv f3 ((1 + w) ^ 3);
        ndiv f4 ((1 + w) ^ 4); ndiv f5 ((1 + w) ^ 5)] /\
     discounted_terminal tv w = ndiv tv ((1 + w) ^ 5)) /\
  (forall f1 f2 f3 f4 f5 tv w,
     ~ 1 + w == 0 ->
     exists d1 d2 d3 d4 d5 dt ev,
       discounted_fcfs [Fin f1; Fin f2; Fin f3; Fin f4; Fin f5] w =
         [Fin d1; Fin d2; Fin d3; Fin d4; Fin d5] /\
       discounted_terminal (Fin tv) w = Fin dt /\
       enterprise_value [Fin f1; Fin f2; Fin f3; Fin f4; Fin f5] (Fin tv) w
         = Fin ev /\
       d1 == f1 / (1 + w) ^ 1 /\
       d2 == f2 / (1 + w) ^ 2 /\
       d3 == f3 / (1 + w) ^ 3 /\
       d4 == f4 / (1 + w) ^ 4 /\
       d5 == f5 / (1 + w) ^ 5 /\
       dt == tv / (1 + w) ^ 5 /\
       ev == d1 + d2 + d3 + d4 + d5 + dt) /\
  (forall f1 f3 f4 f5,
     nth_error (discounted_fcfs [f1; Fin 121; f3; f4; f5] (1 # 10)) 1
       = Some (Fin (121 / (1 + (1 # 10)) ^ 2))) /\
  discounted_b64 121 0.1 2 = (121 / ((1 + 0.1) * (1 + 0.1)))%float /\
  discounted_b64 121 0.1 2 = 99.99999999999999%float /\
  PrimFloat.leb (PrimFloat.abs (discounted_b64 121 0.1 2 - 100)) 0x1p-46 = true.
Proof.
  split; [|split; [|split; [|split; [|split]]]].
  - intros. unfold discounted_fcfs, discounted_terminal.
    rewrite discount_factors_five. split; reflexivity.
  - intros f1 f2 f3 f4 f5 tv w H.
    unfold enterprise_value, discounted_fcfs, discounted_terminal.
    rewrite discount_factors_five. cbn [array_div].
    rewrite !(ndiv_power _ _ _ H). cbn [np_sum fold_left nadd].
    do 7 eexists. repeat split; try reflexivity. ring.
  - intros. unfold discounted_fcfs. rewrite discount_factors_five. reflexivity.
  - reflexivity.
  - reflexivity.
  - reflexivity.
Qed.

Lemma discounting_formula_witness :
  exists d2 ev,
    nth_error (discounted_fcfs [Fin 110; Fin 121; Fin 0; Fin 0; Fin 0] (1 # 10)) 1
      = Some (Fin d2) /\
    d2 == 121 / (1 + (1 # 10)) ^ 2 /\
    enterprise_value [Fin 110; Fin 121; Fin 0; Fin 0; Fin 0] (Fin 0) (1 # 10)
      = Fin ev.
Proof.
  assert (H : ~ 1 + (1 # 10) == 0) by discriminate.
  destruct (proj1 (proj2 discounting_formula) 110 121 0 0 0 0 (1 # 10) H)
    as [d1 [d2 [d3 [d4 [d5 [dt [ev [D [T [V [E1 [E2 _]]]]]]]]]]]].
  exists d2, ev. rewrite D. repeat split; [exact E2 | exact V].
Defined.

(** * Further properties of the script *)

(** ** Lookups *)

Lemma item_last_raise {A : Type} (l : list A) (e : exn) :
  item_last l = Raise e -> e = IndexError /\ l = [].
Proof.
  induction l as [|a l IH]; cbn [item_last].
  - intros H. injection H as <-. split; reflexivity.
  - destruct l as [|b l]; [discriminate|]. intros H.
    destruct (IH H) as [_ N]. discriminate N.
Qed.

Lemma safe_get_cases (df : DataFrame) (label : string) (default : Q) :
  (in_index label df = false /\ safe_get df label default = Done default) \/
  (exists y v rest,
     loc df label = Done ((y, v) :: rest) /\ safe_get df label default = Done v) \/
  (loc df label = Done [] /\ safe_get df label default = Raise IndexError).
Proof.
  unfold safe_get. destruct (in_index label df) eqn:I; [right | left; auto].
  destruct (loc_in_index _ _ I) as [row L]. rewrite L. cbn [bind].
  destruct row as [|[y v] rest]; [right; auto | left].
  exists y, v, rest. split; reflexivity.
Qed.

(** X1.  A label that the statement has yields the value of the first
    column of its row, the most recent year, whatever default was passed. *)
Theorem safe_get_present
    (df : DataFrame) (label : string) (y : Z) (v : Q) (rest : Series) (default : Q) :
  loc df label = Done ((y, v) :: rest) ->
  in_index label df = true /\ safe_get df label default = Done v.
Proof.
  intros L. split; [exact (loc_done_in_index _ _ _ L)|].
  destruct (safe_get_cases df label default)
    as [[I _] | [[y' [v' [rest' [L' S]]]] | [L' _]]].
  - rewrite (loc_done_in_index _ _ _ L) in I. discriminate I.
  - rewrite L in L'. injection L' as _ <- _. exact S.
  - rewrite L in L'. discriminate L'.
Qed.

Lemma safe_get_present_witness :
  safe_get sample_balance_sheet "Total Debt" 0 = Done 300 /\
  safe_get sample_income_stmt "Tax Rate For Calcs" (241 # 1000) = Done (22 # 100).
Proof.
  split.
  - apply (safe_get_present sample_balance_sheet "Total Debt" 2023 300
             [(2022%Z, 320)] 0 eq_refl).
  - apply (safe_get_present sample_income_stmt "Tax Rate For Calcs" 2023 (22 # 100)
             [(2022%Z, 22 # 100)] (241 # 1000) eq_refl).
Defined.

(** X2.  The only way a lookup fails is [IndexError], and that exactly
    when the label's row exists and has no column; the membership test
    rules out [KeyError]. *)
Theorem safe_get_raises_iff
    (df : DataFrame) (label : string) (default : Q) (e : exn) :
  safe_get df label default = Raise e <->
  e = IndexError /\ loc df label = Done [].
Proof.
  destruct (safe_get_cases df label default)
    as [[I S] | [[y [v [rest [L S]]]] | [L S]]]; rewrite S; split.
  - discriminate.
  - intros [_ L]. rewrite (loc_done_in_index _ _ _ L) in I. discriminate I.
  - discriminate.
  - intros [_ L']. rewrite L in L'. discriminate L'.
  - intros H. injection H as <-. split; [reflexivity | exact L].
  - intros [-> _]. reflexivity.
Qed.

Lemma safe_get_raises_iff_witness :
  safe_get hollow_balance_sheet "Total Debt" 0 = Raise IndexError.
Proof.
  apply (proj2 (safe_get_raises_iff hollow_balance_sheet "Total Debt" 0 IndexError)).
  split; reflexivity.
Defined.

(** ** The forecast on any non-empty history *)

Lemma np_mean_nonempty (l : list Q) :
  l <> [] ->
  np_mean l = Fin (fold_left Qplus l 0 / inject_Z (Z.of_nat (List.length l))).
Proof. destruct l; [contradiction | reflexivity]. Qed.

Lemma raw_snoc (y : Z) (v : Q) (rest : Series) :
  rev (firstn 4 ((y, v) :: rest)) = rev (firstn 3 rest) ++ [(y, v)].
Proof. reflexivity. Qed.

(** The forecast block on a row with at least one column: [y] and [v] are
    the year and value of the most recent one. *)
Lemma forecast_general (cf : DataFrame) (y : Z) (v : Q) (rest : Series) :
  loc cf fcf_line = Done ((y, v) :: rest) ->
  let raw := rev (firstn 4 ((y, v) :: rest)) in
  let m := fold_left Qplus (values raw) 0
           / inject_Z (Z.of_nat (List.length (values raw))) in
  let g := 1 + (17 # 100) in
  forecast cf =
    Done {| fcf_raw := Some raw;
            years := Some (index_years raw);
            base_value := Some (Fin m);
            forecast_years := Some [y + 1; y + 2; y + 3; y + 4; y + 5]%Z;
            growth_rate := Some (17 # 100);
            fcf_forecast :=
              [Fin (m * g ^ 1); Fin (m * g ^ 2); Fin (m * g ^ 3);
               Fin (m * g ^ 4); Fin (m * g ^ 5)];
            terminal_value := Fin (m * g ^ 5 * (103 # 100)) |}.
Proof.
  intros L raw m g. unfold forecast.
  rewrite (loc_done_in_index _ _ _ L), L. cbn [bind]. fold raw.
  assert (Y : item_last (index_years raw) = Done y).
  { unfold raw. rewrite raw_snoc. unfold index_years. rewrite map_app.
    apply item_last_app. }
  rewrite Y. cbn [bind]. rewrite range_1_6.
  rewrite np_mean_nonempty.
  - reflexivity.
  - unfold raw. rewrite raw_snoc. unfold values. rewrite map_app. cbn [map].
    intros E. apply app_eq_nil in E. destruct E as [_ E]. discriminate E.
Qed.

Lemma fold_left_Qplus (l : list Q) (a : Q) :
  fold_left Qplus l a == a + Qsum l.
Proof.
  revert a. induction l as [|x l IH]; intros a; unfold Qsum; simpl.
  - ring.
  - rewrite IH. unfold Qsum. ring.
Qed.

Lemma Qsum_app (l1 l2 : list Q) : Qsum (l1 ++ l2) == Qsum l1 + Qsum l2.
Proof.
  induction l1 as [|x l1 IH]; unfold Qsum in *; simpl.
  - ring.
  - rewrite IH. ring.
Qed.

Lemma Qsum_rev (l : list Q) : Qsum (rev l) == Qsum l.
Proof.
  induction l as [|x l IH]; [reflexivity|].
  cbn [rev]. rewrite Qsum_app, IH. unfold Qsum. simpl. ring.
Qed.

(** X3.  The base of the forecast is the mean of the most recent columns
    of the free-cash-flow row, four of them at most: a row with fewer
    columns is averaged over what it has, and columns beyond the fourth do
    not count.  The first forecast is that mean times 1.17. *)
Theorem forecast_base_is_mean (cf : DataFrame) (y : Z) (v : Q) (rest : Series) :
  loc cf fcf_line = Done ((y, v) :: rest) ->
  exists env base f1,
    forecast cf = Done env /\
    base_value env = Some (Fin base) /\
    nth_error (fcf_forecast env) 0 = Some (Fin f1) /\
    base * inject_Z (Z.of_nat (Nat.min 4 (List.length ((y, v) :: rest))))
      == Qsum (values (firstn 4 ((y, v) :: rest))) /\
    f1 == base * (117 # 100).
Proof.
  intros L. pose proof (forecast_general _ _ _ _ L) as F. cbv zeta in F.
  do 3 eexists. split; [exact F|]. split; [reflexivity|]. split; [reflexivity|].
  split; [|reflexivity].
  set (row := (y, v) :: rest).
  assert (N : List.length (values (rev (firstn 4 row)))
              = Nat.min 4 (List.length row)).
  { unfold values. rewrite length_map, length_rev. apply length_firstn. }
  assert (S : fold_left Qplus (values (rev (firstn 4 row))) 0
              == Qsum (values (firstn 4 row))).
  { rewrite fold_left_Qplus. unfold values. rewrite map_rev, Qsum_rev. ring. }
  rewrite N, S.
  assert (P : ~ inject_Z (Z.of_nat (Nat.min 4 (List.length row))) == 0).
  { unfold row. cbn [List.length]. intros E.
    destruct (List.length rest) as [|[|[|n]]]; discriminate E. }
  field. exact P.
Qed.

Lemma forecast_base_is_mean_witness :
  exists env base,
    forecast short_cashflow = Done env /\
    base_value env = Some (Fin base) /\
    base * 1 == 250.
Proof.
  destruct (forecast_base_is_mean short_cashflow 2023 250 [] eq_refl)
    as [env [base [f1 [F [B [_ [M _]]]]]]].
  exists env, base. repeat split; [exact F | exact B |].
  rewrite M. reflexivity.
Defined.

(** X4.  The historical years are those of the columns read, oldest
    first, and the forecast years are the five years that follow the most
    recent reporting year. *)
Theorem forecast_years_follow (cf : DataFrame) (y : Z) (v : Q) (rest : Series) :
  loc cf fcf_line = Done ((y, v) :: rest) ->
  exists env,
    forecast cf = Done env /\
    years env = Some (rev (map fst (firstn 4 ((y, v) :: rest)))) /\
    forecast_years env = Some [y + 1; y + 2; y + 3; y + 4; y + 5]%Z /\
    (forall hs, years env = Some hs -> item_last hs = Done y).
Proof.
  intros L. pose proof (forecast_general _ _ _ _ L) as F. cbv zeta in F.
  eexists. split; [exact F|]. cbn [years forecast_years].
  split; [unfold index_years; rewrite map_rev; reflexivity|].
  split; [reflexivity|].
  intros hs H. cbn [years] in H. injection H as <-.
  change (firstn 4 ((y, v) :: rest)) with ((y, v) :: firstn 3 rest).
  cbn [rev]. unfold index_years. rewrite map_app. apply item_last_app.
Qed.

Lemma forecast_years_follow_witness :
  exists env,
    forecast long_cashflow = Done env /\
    years env = Some [2020; 2021; 2022; 2023]%Z /\
    forecast_years env = Some [2024; 2025; 2026; 2027; 2028]%Z.
Proof.
  destruct (forecast_years_follow long_cashflow 2023 400
              [(2022%Z, 300); (2021%Z, 200); (2020%Z, 100);
               (2019%Z, -5000); (2018%Z, 77)] eq_refl)
    as [env [F [Y [FY _]]]].
  exists env. repeat split; assumption.
Defined.

(** X5.  Whatever the history, the forecast keeps the direction of its
    first year: when that is not negative no year is below the one before
    and the terminal value is not below the last year; when it is not
    positive no year is above the one before and the terminal value is not
    above the last year. *)
Theorem forecast_keeps_direction (cf : DataFrame) (y : Z) (v : Q) (rest : Series) :
  loc cf fcf_line = Done ((y, v) :: rest) ->
  exists env f1 f2 f3 f4 f5 tv,
    forecast cf = Done env /\
    fcf_forecast env = [Fin f1; Fin f2; Fin f3; Fin f4; Fin f5] /\
    terminal_value env = Fin tv /\
    (0 <= f1 -> f1 <= f2 /\ f2 <= f3 /\ f3 <= f4 /\ f4 <= f5 /\ f5 <= tv) /\
    (f1 <= 0 -> tv <= f5 /\ f5 <= f4 /\ f4 <= f3 /\ f3 <= f2 /\ f2 <= f1).
Proof.
  intros L. pose proof (forecast_general _ _ _ _ L) as F. cbv zeta in F.
  do 7 eexists. split; [exact F|]. split; [reflexivity|]. split; [reflexivity|].
  match goal with
  | |- (_ <= ?a1 -> ?a1 <= ?a2 /\ ?a2 <= ?a3 /\ ?a3 <= ?a4 /\ ?a4 <= ?a5 /\ ?a5 <= ?t)
       /\ _ =>
      assert (R : a2 == a1 * (117 # 100) /\ a3 == a2 * (117 # 100) /\
                  a4 == a3 * (117 # 100) /\ a5 == a4 * (117 # 100) /\
                  t == a5 * (103 # 100));
      [ repeat split; ring
      | generalize dependent a1; generalize dependent a2;
        generalize dependent a3; generalize dependent a4;
        generalize dependent a5; generalize dependent t ]
  end.
  intros t a5 a4 a3 a2 a1 _ [R2 [R3 [R4 [R5 RT]]]].
  repeat split; intros; lra.
Qed.

Lemma forecast_keeps_direction_witness :
  exists env f1 f5 tv,
    forecast short_cashflow = Done env /\
    nth_error (fcf_forecast env) 0 = Some (Fin f1) /\
    nth_error (fcf_forecast env) 4 = Some (Fin f5) /\
    terminal_value env = Fin tv /\
    (0 <= f1 -> f1 <= f5 /\ f5 <= tv).
Proof.
  destruct (forecast_keeps_direction short_cashflow 2023 250 [] eq_refl)
    as [env [f1 [f2 [f3 [f4 [f5 [tv [F [L [T [U _]]]]]]]]]]].
  exists env, f1, f5, tv. rewrite L.
  split; [exact F|]. split; [reflexivity|]. split; [reflexivity|].
  split; [exact T|]. intros P. destruct (U P) as [A [B [C [D E]]]].
  split; [|exact E]. lra.
Defined.

(** X6.  The valuation reads the cash-flow statement only through the four
    most recent columns of its free-cash-flow row: two requests that agree
    there, and on everything else, have the same outcome. *)
Theorem valuation_reads_four_columns (pw : Q -> Q -> num)
    (rq1 rq2 : request) (row1 row2 : Series) :
  close rq1 = close rq2 ->
  income_stmt rq1 = income_stmt rq2 ->
  balance_sheet rq1 = balance_sheet rq2 ->
  risk_free_rate rq1 = risk_free_rate rq2 ->
  loc (cashflow rq1) fcf_line = Done row1 ->
  loc (cashflow rq2) fcf_line = Done row2 ->
  firstn 4 row1 = firstn 4 row2 ->
  dcf pw rq1 = dcf pw rq2.
Proof.
  intros C I B R L1 L2 E.
  assert (F : forecast (cashflow rq1) = forecast (cashflow rq2)).
  { unfold forecast.
    rewrite (loc_done_in_index _ _ _ L1), (loc_done_in_index _ _ _ L2), L1, L2.
    cbn [bind]. rewrite E. reflexivity. }
  unfold dcf. rewrite C, I, B, R, F. reflexivity.
Qed.

Lemma valuation_reads_four_columns_witness :
  dcf sample_power long_request = dcf sample_power sample_request.
Proof.
  apply (valuation_reads_four_columns sample_power long_request sample_request
           [(2023%Z, 400); (2022%Z, 300); (2021%Z, 200); (2020%Z, 100);
            (2019%Z, -5000); (2018%Z, 77)]
           [(2023%Z, 400); (2022%Z, 300); (2021%Z, 200); (2020%Z, 100)]);
    reflexivity.
Defined.

(** ** When the script completes and how it fails *)

Lemma bind_raise {A B : Type} (m : outcome A) (k : A -> outcome B) (e : exn) :
  bind m k = Raise e ->
  m = Raise e \/ exists a, m = Done a /\ k a = Raise e.
Proof.
  destruct m as [a|e']; cbn [bind]; intros H; [right; eauto | left].
  injection H as <-. reflexivity.
Qed.

Lemma usable_safe_get (df : DataFrame) (label : string) (default : Q) :
  usable df label -> exists q, safe_get df label default = Done q.
Proof.
  intros U. destruct (safe_get_cases df label default)
    as [[_ S] | [[y [v [rest [_ S]]]] | [L _]]]; eauto.
  exfalso. exact (U _ L eq_refl).
Qed.

Lemma safe_get_done_usable (df : DataFrame) (label : string) (default q : Q) :
  safe_get df label default = Done q -> usable df label.
Proof.
  intros S row L E. subst row.
  destruct (safe_get_cases df label default)
    as [[I _] | [[y [v [rest [L' _]]]] | [_ S']]].
  - rewrite (loc_done_in_index _ _ _ L) in I. discriminate I.
  - rewrite L in L'. discriminate L'.
  - rewrite S in S'. discriminate S'.
Qed.

Lemma safe_get_raise_index (df : DataFrame) (label : string) (default : Q) (e : exn) :
  safe_get df label default = Raise e -> e = IndexError.
Proof.
  intros S. destruct (safe_get_cases df label default)
    as [[_ S'] | [[y [v [rest [_ S']]]] | [_ S']]];
    rewrite S in S'; congruence.
Qed.

(** The three ways the forecast block can go. *)
Lemma forecast_cases (cf : DataFrame) :
  (in_index fcf_line cf = false /\
   exists env, forecast cf = Done env /\ fcf_raw env = None) \/
  (exists y v rest env raw first last_forecast,
     loc cf fcf_line = Done ((y, v) :: rest) /\
     forecast cf = Done env /\
     fcf_raw env = Some raw /\
     item0 (values raw) = Done first /\
     item_last (fcf_forecast env) = Done last_forecast) \/
  (loc cf fcf_line = Done [] /\ forecast cf = Raise IndexError).
Proof.
  destruct (in_index fcf_line cf) eqn:I.
  - right. destruct (loc_in_index _ _ I) as [row L].
    destruct row as [|[y v] rest].
    + right. split; [exact L|]. unfold forecast. rewrite I, L. reflexivity.
    + left. assert (N : (y, v) :: rest <> []) by discriminate.
      destruct (forecast_present _ _ L N)
        as [env [raw [first [lf [F [R [F0 [FL _]]]]]]]].
      exists y, v, rest, env, raw, first, lf. repeat split; assumption.
  - left. split; [reflexivity|]. eexists.
    split; [apply forecast_missing, I | reflexivity].
Qed.

Lemma fcf_cagr_bound (pw : Q -> Q -> num) (env : forecast_env)
    (raw : Series) (first : Q) (last_forecast : num) :
  fcf_raw env = Some raw -> item0 (values raw) = Done first ->
  item_last (fcf_forecast env) = Done last_forecast ->
  exists g, fcf_cagr pw env = Done g.
Proof.
  intros R F0 FL. unfold fcf_cagr. rewrite R. cbn [read bind]. rewrite F0.
  cbn [bind]. destruct (truthy first); [rewrite FL|]; cbn [bind]; eauto.
Qed.

(** X7.  The script runs to the end exactly when the price history has a
    row, the cash-flow statement has a free-cash-flow row with at least one
    column, and none of the six looked-up rows that exist is without
    columns. *)
Theorem run_completes_iff (pw : Q -> Q -> num) (rq : request) :
  (exists v, dcf pw rq = Done v) <->
  close rq <> [] /\
  (exists y v rest, loc (cashflow rq) fcf_line = Done ((y, v) :: rest)) /\
  usable (balance_sheet rq) "Total Equity Gross Minority Interest" /\
  usable (balance_sheet rq) "Total Debt" /\
  usable (balance_sheet rq) "Cash And Cash Equivalents" /\
  usable (balance_sheet rq) "Ordinary Shares Number" /\
  usable (income_stmt rq) "Interest Expense" /\
  usable (income_stmt rq) "Tax Rate For Calcs".
Proof.
  split.
  - intros [v H]. apply dcf_done in H.
    destruct H as [env [F [C [G [_ [_ [S1 [S2 [S3 [S4 [S5 [S6 _]]]]]]]]]]]].
    split; [intros E; rewrite E in C; discriminate C|].
    split.
    + destruct (forecast_cases (cashflow rq))
        as [[_ [env' [F' R]]] | [[y [u [rest [env' [raw [a [lf [L _]]]]]]]] | [_ F']]].
      * rewrite F in F'. injection F' as <-.
        unfold fcf_cagr in G. rewrite R in G. discriminate G.
      * exists y, u, rest. exact L.
      * rewrite F in F'. discriminate F'.
    + split; [exact (safe_get_done_usable _ _ _ _ S1)|].
      split; [exact (safe_get_done_usable _ _ _ _ S2)|].
      split; [exact (safe_get_done_usable _ _ _ _ S3)|].
      split; [exact (safe_get_done_usable _ _ _ _ S4)|].
      split; [exact (safe_get_done_usable _ _ _ _ S5)|].
      exact (safe_get_done_usable _ _ _ _ S6).
  - intros [C [[y [u [rest L]]] [U1 [U2 [U3 [U4 [U5 U6]]]]]]].
    unfold dcf.
    destruct (item_last (close rq)) as [mp|e] eqn:M;
      [|apply item_last_raise in M; destruct M as [_ M]; contradiction].
    cbn [bind].
    assert (N : (y, u) :: rest <> []) by discriminate.
    destruct (forecast_present _ _ L N)
      as [env [raw [first [lf [F [R [F0 [FL _]]]]]]]].
    rewrite F. cbn [bind].
    destruct (fcf_cagr_bound pw env raw first lf R F0 FL) as [g G].
    rewrite G. cbn [bind].
    destruct (usable_safe_get _ _ 0 U1) as [q1 E1]. rewrite E1. cbn [bind].
    destruct (usable_safe_get _ _ 0 U2) as [q2 E2]. rewrite E2. cbn [bind].
    destruct (usable_safe_get _ _ 0 U3) as [q3 E3]. rewrite E3. cbn [bind].
    destruct (usable_safe_get _ _ 0 U4) as [q4 E4]. rewrite E4. cbn [bind].
    destruct (usable_safe_get _ _ 0 U5) as [q5 E5]. rewrite E5. cbn [bind].
    destruct (usable_safe_get _ _ (241 # 1000) U6) as [q6 E6]. rewrite E6.
    cbn [bind]. eexists. reflexivity.
Qed.

Lemma run_completes_iff_witness :
  (exists v, dcf sample_power request_without_balance_sheet = Done v) /\
  ~ (exists v, dcf sample_power hollow_request = Done v).
Proof.
  split.
  - apply (proj2 (run_completes_iff sample_power request_without_balance_sheet)).
    split; [discriminate|].
    split; [do 3 eexists; reflexivity|].
    repeat split; intros row L; vm_compute in L; try discriminate L;
      injection L as <-; discriminate.
  - intros H.
    apply (proj1 (run_completes_iff sample_power hollow_request)) in H.
    destruct H as [_ [_ [_ [U _]]]]. exact (U [] eq_refl eq_refl).
Defined.

(** X8.  The script raises nothing but [IndexError] and the [NameError] on
    [fcf_raw]; the latter needs a cash-flow statement without a
    free-cash-flow row. *)
Theorem run_raises_only (pw : Q -> Q -> num) (rq : request) (e : exn) :
  dcf pw rq = Raise e ->
  e = IndexError \/
  (e = NameError "fcf_raw" /\
   in_index fcf_line (cashflow rq) = false /\ close rq <> []).
Proof.
  unfold dcf. intros H.
  apply bind_raise in H. destruct H as [H | [mp [M H]]].
  { left. apply item_last_raise in H. apply H. }
  apply bind_raise in H. destruct H as [H | [env [F H]]].
  { left. destruct (forecast_cases (cashflow rq))
      as [[_ [env [F _]]] | [[y [u [rest [env [raw [a [lf [_ [F _]]]]]]]]] | [_ F]]];
      rewrite H in F; congruence. }
  apply bind_raise in H. destruct H as [H | [g [G H]]].
  { right. destruct (forecast_cases (cashflow rq))
      as [[I [env' [F' R]]] | [[y [u [rest [env' [raw [a [lf [_ [F' [R [F0 FL]]]]]]]]]]] | [_ F']]];
      rewrite F in F'; try discriminate F'; injection F' as <-.
    - unfold fcf_cagr in H. rewrite R in H. cbn [read bind] in H.
      injection H as <-. split; [reflexivity|]. split; [exact I|].
      intros E. rewrite E in M. discriminate M.
    - destruct (fcf_cagr_bound pw env raw a lf R F0 FL) as [g G].
      rewrite H in G. discriminate G. }
  left.
  repeat (apply bind_raise in H;
          destruct H as [H | [? [_ H]]];
          [exact (safe_get_raise_index _ _ _ _ H)|]).
  discriminate H.
Qed.

Lemma run_raises_only_witness :
  dcf sample_power no_history_request = Raise IndexError /\
  dcf sample_power hollow_request = Raise IndexError.
Proof.
  split.
  - destruct (dcf sample_power no_history_request) as [v|e] eqn:E;
      [vm_compute in E; discriminate E|].
    destruct (run_raises_only _ _ _ E) as [-> | [_ [I _]]];
      [reflexivity | discriminate I].
  - destruct (dcf sample_power hollow_request) as [v|e] eqn:E;
      [vm_compute in E; discriminate E|].
    destruct (run_raises_only _ _ _ E) as [-> | [_ [I _]]];
      [reflexivity | discriminate I].
Defined.

(** ** The discount rate *)

Lemma wacc_blend (te td coe atc : Q) :
  ~ te + td == 0 ->
  wacc te td coe atc == coe + td / (te + td) * (atc / 100 - coe).
Proof.
  intros H. unfold wacc, equity_weight, debt_weight, total_capital.
  rewrite (proj2 (truthy_true _) H). field. exact H.
Qed.

(** X11.  A company without debt is discounted at the cost of equity, and
    one without equity at the after-tax cost of debt. *)
Theorem wacc_single_source (te td coe atc : Q) :
  (td == 0 -> ~ te == 0 -> wacc te td coe atc == coe) /\
  (te == 0 -> ~ td == 0 -> wacc te td coe atc == atc / 100).
Proof.
  split; intros Z N.
  - assert (H : ~ te + td == 0) by (rewrite Z; lra).
    rewrite (wacc_blend _ _ _ _ H), Z. field. lra.
  - assert (H : ~ te + td == 0) by (rewrite Z; lra).
    rewrite (wacc_blend _ _ _ _ H), Z. field. lra.
Qed.

Lemma wacc_single_source_witness :
  wacc 700 0 (109 # 1000) 12 == 109 # 1000 /\
  wacc 0 300 (109 # 1000) 12 == 12 / 100.
Proof.
  split.
  - apply (proj1 (wacc_single_source 700 0 (109 # 1000) 12));
      [reflexivity | discriminate].
  - apply (proj2 (wacc_single_source 0 300 (109 # 1000) 12));
      [reflexivity | discriminate].
Defined.

(** X12.  The cost of equity never falls when the risk-free rate rises,
    and it is never below the risk-free rate as a fraction.  In a completed
    run it is determined by the risk-free rate alone: two requests with the
    same rate have the same cost of equity, whatever their statements. *)
Theorem cost_of_equity_monotone :
  (forall r1 r2, r1 <= r2 -> cost_of_equity r1 <= cost_of_equity r2) /\
  (forall r, r / 100 <= cost_of_equity r) /\
  (forall pw rq1 rq2 v1 v2,
     dcf pw rq1 = Done v1 -> dcf pw rq2 = Done v2 ->
     risk_free_rate rq1 = risk_free_rate rq2 ->
     v_cost_of_equity v1 = v_cost_of_equity v2).
Proof.
  split; [|split].
  - intros r1 r2 H.
    unfold cost_of_equity, equity_risk_premium, country_risk_premium.
    assert (D : r1 / 100 <= r2 / 100).
    { unfold Qdiv. apply Qmult_le_compat_r; [exact H | discriminate]. }
    generalize dependent (r1 / 100). generalize dependent (r2 / 100).
    intros; lra.
  - intros r. unfold cost_of_equity, equity_risk_premium, country_risk_premium.
    generalize (r / 100). intros q.
    assert (P : 0 <= (29 # 10) / 100 + (25 # 10) / 100) by discriminate.
    generalize dependent ((29 # 10) / 100). generalize dependent ((25 # 10) / 100).
    intros; lra.
  - intros pw rq1 rq2 v1 v2 H1 H2 R.
    apply dcf_done in H1. destruct H1 as [env1 H1]. decompose [and] H1.
    apply dcf_done in H2. destruct H2 as [env2 H2]. decompose [and] H2.
    repeat match goal with E : v_cost_of_equity _ = _ |- _ => rewrite E; clear E end.
    rewrite R. reflexivity.
Qed.

Lemma cost_of_equity_monotone_witness :
  cost_of_equity 5 <= cost_of_equity (55 # 10) /\
  exists v1 v2,
    dcf sample_power sample_request = Done v1 /\
    dcf sample_power request_without_balance_sheet = Done v2 /\
    v_cost_of_equity v1 = v_cost_of_equity v2.
Proof.
  split.
  - apply (proj1 cost_of_equity_monotone). discriminate.
  - destruct (dcf sample_power sample_request) as [v1|?] eqn:E1;
      [|vm_compute in E1; discriminate E1].
    destruct (dcf sample_power request_without_balance_sheet) as [v2|?] eqn:E2;
      [|vm_compute in E2; discriminate E2].
    exists v1, v2. split; [reflexivity|]. split; [reflexivity|].
    apply (proj2 (proj2 cost_of_equity_monotone) _ _ _ _ _ E1 E2). reflexivity.
Defined.

(** X13.  For a non-negative pretax cost and a tax rate between 0 and 1
    the after-tax cost of debt is non-negative and no more than the pretax
    cost. *)
Theorem after_tax_cod_bounds (p t : Q) :
  0 <= p -> 0 <= t -> t <= 1 ->
  0 <= after_tax_cod p t /\ after_tax_cod p t <= p.
Proof. intros P T0 T1. unfold after_tax_cod. split; nra. Qed.

Lemma after_tax_cod_bounds_witness :
  0 <= after_tax_cod 5 (241 # 1000) /\ after_tax_cod 5 (241 # 1000) <= 5.
Proof. apply (after_tax_cod_bounds 5 (241 # 1000)); discriminate. Defined.

(** ** Enterprise value *)

Lemma nadd_nonfin_r (x : num) : nadd x NonFin = NonFin.
Proof. destruct x; reflexivity. Qed.

Lemma ev_five_nonzero (f1 f2 f3 f4 f5 tv w : Q) :
  ~ 1 + w == 0 ->
  enterprise_value [Fin f1; Fin f2; Fin f3; Fin f4; Fin f5] (Fin tv) w =
    Fin (0 + f1 / (1 + w) ^ 1 + f2 / (1 + w) ^ 2 + f3 / (1 + w) ^ 3
         + f4 / (1 + w) ^ 4 + f5 / (1 + w) ^ 5 + tv / (1 + w) ^ 5).
Proof.
  intros H. unfold enterprise_value, discounted_fcfs, discounted_terminal.
  rewrite discount_factors_five. cbn [array_div].
  rewrite !(ndiv_power _ _ _ H). reflexivity.
Qed.

Lemma ev_zero_base (fs : list num) (tv : num) (w : Q) :
  1 + w == 0 -> enterprise_value fs tv w = NonFin.
Proof.
  intros H. unfold enterprise_value, discounted_terminal.
  rewrite ndiv_zero; [apply nadd_nonfin_r|].
  rewrite H. apply Qpower_0. discriminate.
Qed.

(** X14.  Discounting has no guard either.  When 1 + WACC is zero the
    enterprise value is not a finite number, whatever the forecasts; in a
    completed run the equity value is then not finite, and neither are the
    intrinsic value and the upside unless the shares outstanding are zero,
    in which case the intrinsic value is still 0. *)
Theorem discounting_unguarded :
  (forall fs tv w, 1 + w == 0 -> enterprise_value fs tv w = NonFin) /\
  (forall pw rq v,
     dcf pw rq = Done v -> 1 + v_wacc v == 0 ->
     v_enterprise_value v = NonFin /\
     v_equity_value v = NonFin /\
     (~ v_shares_outstanding v == 0 ->
        v_intrinsic_value v = NonFin /\ v_upside v = NonFin) /\
     (v_shares_outstanding v == 0 -> v_intrinsic_value v = Fin 0)).
Proof.
  split; [exact ev_zero_base|].
  intros pw rq v H Z. apply dcf_done in H. destruct H as [env H].
  decompose [and] H. clear H.
  assert (EV : v_enterprise_value v = NonFin).
  { match goal with E : v_enterprise_value v = _ |- _ => rewrite E end.
    apply ev_zero_base, Z. }
  assert (EQ : v_equity_value v = NonFin).
  { match goal with E : v_equity_value v = _ |- _ => rewrite E end.
    rewrite EV. reflexivity. }
  split; [exact EV|]. split; [exact EQ|]. split.
  - intros S.
    assert (IV : v_intrinsic_value v = NonFin).
    { match goal with E : v_intrinsic_value v = _ |- _ => rewrite E end.
      rewrite EQ. unfold intrinsic_value.
      rewrite (proj2 (truthy_true _) S). reflexivity. }
    split; [exact IV|].
    match goal with E : v_upside v = _ |- _ => rewrite E end.
    rewrite IV. reflexivity.
  - intros S.
    match goal with E : v_intrinsic_value v = _ |- _ => rewrite E end.
    unfold intrinsic_value. rewrite (proj2 (truthy_false _) S). reflexivity.
Qed.

Lemma discounting_unguarded_witness :
  enterprise_value [Fin 110; Fin 121; Fin 0; Fin 0; Fin 0] (Fin 0) (-1) = NonFin /\
  exists v,
    dcf sample_power negative_rate_request = Done v /\
    1 + v_wacc v == 0 /\
    v_intrinsic_value v = NonFin /\ v_upside v = NonFin.
Proof.
  split.
  - apply (proj1 discounting_unguarded). reflexivity.
  - completed_run v E. exists v.
    assert (W : 1 + v_wacc v == 0).
    { pose proof E as E'. vm_compute in E'. injection E' as <-. reflexivity. }
    assert (S : ~ v_shares_outstanding v == 0).
    { pose proof E as E'. vm_compute in E'. injection E' as <-. discriminate. }
    split; [reflexivity|]. split; [exact W|].
    apply (proj2 discounting_unguarded _ _ _ E W). exact S.
Defined.

Lemma Qpower_base_le (a b : Q) (i : positive) :
  0 <= a -> a <= b -> a ^ Zpos i <= b ^ Zpos i.
Proof.
  intros A AB. induction i as [|i IH] using Pos.peano_ind.
  - rewrite !Qpower_1_r. exact AB.
  - rewrite Pos2Z.inj_succ. unfold Z.succ.
    rewrite !Qpower_plus' by discriminate. rewrite !Qpower_1_r.
    apply Qmult_le_compat_nonneg; split; try assumption.
    apply Qpower_0_le, A.
Qed.

Lemma discount_antitone (f a b : Q) (i : positive) :
  0 <= f -> 0 < a -> a <= b -> f / b ^ Zpos i <= f / a ^ Zpos i.
Proof.
  intros F A AB.
  assert (PA : 0 < a ^ Zpos i) by (apply Qpower_0_lt, A).
  assert (LE : a ^ Zpos i <= b ^ Zpos i)
    by (apply Qpower_base_le; [apply Qlt_le_weak, A | exact AB]).
  assert (PB : 0 < b ^ Zpos i) by (eapply Qlt_le_trans; eassumption).
  generalize dependent (a ^ Zpos i). generalize dependent (b ^ Zpos i).
  intros B PB A' PA LE.
  apply Qle_shift_div_l; [exact PA|].
  setoid_replace (f / B * A') with (f * A' / B) by (field; lra).
  apply Qle_shift_div_r; [exact PB|].
  apply Qmult_le_compat_nonneg; split; try lra.
Qed.

(** X16.  For non-negative forecasts and terminal value, and discount
    rates above -100%, a higher WACC never gives a higher enterprise
    value. *)
Theorem enterprise_value_antitone (f1 f2 f3 f4 f5 tv w1 w2 : Q) :
  0 <= f1 -> 0 <= f2 -> 0 <= f3 -> 0 <= f4 -> 0 <= f5 -> 0 <= tv ->
  0 < 1 + w1 -> w1 <= w2 ->
  exists e1 e2,
    enterprise_value [Fin f1; Fin f2; Fin f3; Fin f4; Fin f5] (Fin tv) w1 = Fin e1 /\
    enterprise_value [Fin f1; Fin f2; Fin f3; Fin f4; Fin f5] (Fin tv) w2 = Fin e2 /\
    e2 <= e1.
Proof.
  intros F1 F2 F3 F4 F5 TV W1 W12.
  assert (N1 : ~ 1 + w1 == 0) by lra.
  assert (N2 : ~ 1 + w2 == 0) by lra.
  assert (AB : 1 + w1 <= 1 + w2) by lra.
  do 2 eexists. split; [apply ev_five_nonzero, N1|].
  split; [apply ev_five_nonzero, N2|].
  pose proof (discount_antitone f1 _ _ 1 F1 W1 AB).
  pose proof (discount_antitone f2 _ _ 2 F2 W1 AB).
  pose proof (discount_antitone f3 _ _ 3 F3 W1 AB).
  pose proof (discount_antitone f4 _ _ 4 F4 W1 AB).
  pose proof (discount_antitone f5 _ _ 5 F5 W1 AB).
  pose proof (discount_antitone tv _ _ 5 TV W1 AB).
  repeat match goal with
  | H : context [?x / ?y ^ ?n] |- _ =>
      let q := fresh "q" in
      remember (x / y ^ n) as q eqn:Hq; clear Hq
  end.
  lra.
Qed.

Lemma enterprise_value_antitone_witness :
  exists e1 e2,
    enterprise_value [Fin 110; Fin 121; Fin 0; Fin 0; Fin 0] (Fin 0) (1 # 10) = Fin e1 /\
    enterprise_value [Fin 110; Fin 121; Fin 0; Fin 0; Fin 0] (Fin 0) (2 # 10) = Fin e2 /\
    e2 <= e1.
Proof.
  apply (enterprise_value_antitone 110 121 0 0 0 0 (1 # 10) (2 # 10));
    discriminate || reflexivity.
Defined.

(** ** The reported values *)

(** X17.  When the shares outstanding are zero, as when the balance sheet
    has no "Ordinary Shares Number" row, the intrinsic value is 0 and, for
    any nonzero market price, the upside is -100 and the box reads
    "Downside Risk". *)
Theorem zero_shares_full_downside (pw : Q -> Q -> num) (rq : request) (v : valuation) :
  dcf pw rq = Done v ->
  v_shares_outstanding v == 0 ->
  ~ v_market_price v == 0 ->
  v_intrinsic_value v = Fin 0 /\
  exists u,
    v_upside v = Fin u /\ u == -100 /\ upside_caption u = "Downside Risk".
Proof.
  intros H S M. apply dcf_done in H. destruct H as [env H]. decompose [and] H.
  assert (I : v_intrinsic_value v = Fin 0).
  { match goal with E : v_intrinsic_value v = _ |- _ => rewrite E end.
    unfold intrinsic_value. rewrite (proj2 (truthy_false _) S). reflexivity. }
  split; [exact I|].
  match goal with E : v_upside v = _ |- _ => rewrite E end.
  rewrite I, (upside_nonzero _ _ M). eexists. split; [reflexivity|].
  assert (U : (0 - v_market_price v) / v_market_price v * 100 == -100)
    by (field; exact M).
  split; [exact U|]. unfold upside_caption.
  destruct (Qle_bool 0 _) eqn:B; [|reflexivity].
  apply Qle_bool_iff in B. rewrite U in B. exfalso. apply B. reflexivity.
Qed.

Lemma zero_shares_full_downside_witness :
  exists v u,
    dcf sample_power request_without_balance_sheet = Done v /\
    v_upside v = Fin u /\ u == -100.
Proof.
  completed_run v E.
  assert (S : v_shares_outstanding v == 0).
  { destruct (dcf_capital_structure _ _ _ E) as [_ [_ [_ [Hs _]]]].
    rewrite Hs; reflexivity. }
  assert (M : ~ v_market_price v == 0).
  { destruct (dcf_done _ _ _ E) as [env [_ [C _]]].
    injection C as <-. discriminate. }
  destruct (zero_shares_full_downside _ _ _ E S M) as [_ [u [U [V _]]]].
  exists v, u. split; [reflexivity|]. split; assumption.
Defined.

(** X18.  For a positive market price the upside never falls when the
    intrinsic value rises, it is at least -100 whenever the intrinsic value
    is not negative, and at an intrinsic value equal to the price it is 0
    and the box reads "Upside Potential". *)
Theorem upside_monotone (mp : Q) :
  0 < mp ->
  (forall iv1 iv2,
     iv1 <= iv2 -> (iv1 - mp) / mp * 100 <= (iv2 - mp) / mp * 100) /\
  (forall iv, 0 <= iv -> -100 <= (iv - mp) / mp * 100) /\
  (forall iv,
     iv == mp ->
     (iv - mp) / mp * 100 == 0 /\
     upside_caption ((iv - mp) / mp * 100) = "Upside Potential") /\
  (forall iv, upside (Fin iv) mp = Fin ((iv - mp) / mp * 100)).
Proof.
  intros P. assert (N : ~ mp == 0) by lra.
  assert (M : forall iv1 iv2,
            iv1 <= iv2 -> (iv1 - mp) / mp * 100 <= (iv2 - mp) / mp * 100).
  { intros iv1 iv2 L.
    destruct (Qlt_le_dec ((iv2 - mp) / mp * 100) ((iv1 - mp) / mp * 100))
      as [C|C]; [|exact C].
    exfalso.
    assert (E : (iv2 - mp) / mp * 100 - (iv1 - mp) / mp * 100
                == (iv2 - iv1) / mp * 100) by (field; exact N).
    assert (G : (iv2 - iv1) / mp * 100 < 0).
    { rewrite <- E. clear E. generalize dependent ((iv2 - mp) / mp * 100).
      generalize dependent ((iv1 - mp) / mp * 100). intros; lra. }
    apply (proj1 (ratio_negative _ _ P)) in G. clear C E. lra. }
  split; [exact M|]. split; [|split].
  - intros iv L.
    assert (E : (0 - mp) / mp * 100 == -100) by (field; exact N).
    rewrite <- E. apply M. exact L.
  - intros iv E.
    assert (Z : (iv - mp) / mp * 100 == 0) by (rewrite E; field; exact N).
    split; [exact Z|]. unfold upside_caption.
    destruct (Qle_bool 0 _) eqn:B; [reflexivity|]. exfalso.
    assert (C : Qle_bool 0 ((iv - mp) / mp * 100) = true).
    { apply Qle_bool_iff. rewrite Z. discriminate. }
    congruence.
  - intros iv. apply upside_nonzero, N.
Qed.

Lemma upside_monotone_witness :
  (8000 - 7000) / 7000 * 100 <= (9000 - 7000) / 7000 * 100 /\
  (7000 - 7000) / 7000 * 100 == 0 /\
  -100 <= (0 - 7000) / 7000 * 100.
Proof.
  assert (P : 0 < 7000) by reflexivity.
  split; [|split].
  - apply (proj1 (upside_monotone 7000 P) 8000 9000). discriminate.
  - apply (proj1 (proj2 (proj2 (upside_monotone 7000 P))) 7000). reflexivity.
  - apply (proj1 (proj2 (upside_monotone 7000 P)) 0). discriminate.
Defined.
